(** * verl/tools/deepproof_tool.py: ListTool and FStarExecutionTool

    A shallow embedding of the two tools of [deepproof_tool.py] and of the
    parts of the Python runtime they touch (values, exceptions, [dict]
    access, [os.environ], [uuid4], one aiohttp round trip, [json.dumps]),
    followed by the properties of the tools. *)

From Stdlib Require Import ZArith String Ascii List Bool Lia.
From Stdlib Require Import Floats.SpecFloat.
From Stdlib Require DecimalString.
From stdpp Require Import base option gmap strings list.

Local Open Scope Z_scope.

(** ** Python values *)

(** The values that reach the tools: what [json] produces and consumes.
    A [dict] keeps its insertion order (it is what [json.dumps] prints),
    so it is an association list; all keys are [str].  A [float] is an
    IEEE value [(-1)^s * m * 2^e].  A [str] is a sequence of code points
    below 256. *)
#[warnings="-register-all"]
Inductive pyval : Type :=
| VNone
| VBool (b : bool)
| VInt (n : Z)
| VFloat (f : spec_float)
| VStr (s : string)
| VList (l : list pyval)
| VDict (d : list (string * pyval)).

Abbreviation pydict := (list (string * pyval)).

(** [type(v).__name__] *)
Definition type_name (v : pyval) : string :=
  match v with
  | VNone => "NoneType"
  | VBool _ => "bool"
  | VInt _ => "int"
  | VFloat _ => "float"
  | VStr _ => "str"
  | VList _ => "list"
  | VDict _ => "dict"
  end.

Definition nl : string := String "010"%char EmptyString.
Definition dquote : string := String "034"%char EmptyString.
Definition squote : string := String "039"%char EmptyString.

(** [str(b)] for a [bool] *)
Definition str_bool (b : bool) : string := if b then "True" else "False".

(** *** Numeric equality

    [==] between numbers compares the mathematical values, whatever the
    types ([bool] is a subclass of [int]); a number never equals a value
    of another kind. *)

Definition Z_of_bool (b : bool) : Z := if b then 1 else 0.

Definition float_eq_Z (f : spec_float) (n : Z) : bool :=
  match f with
  | S754_zero _ => n =? 0
  | S754_finite s m e =>
      let sm := if s then Z.neg m else Z.pos m in
      if 0 <=? e then sm * 2 ^ e =? n else sm =? n * 2 ^ (- e)
  | S754_infinity _ | S754_nan => false
  end.

Definition float_eq (f g : spec_float) : bool :=
  match f, g with
  | S754_zero _, S754_zero _ => true
  | S754_infinity a, S754_infinity b => Bool.eqb a b
  | S754_finite s1 m1 e1, S754_finite s2 m2 e2 =>
      let e := Z.min e1 e2 in
      Bool.eqb s1 s2 && (Z.pos m1 * 2 ^ (e1 - e) =? Z.pos m2 * 2 ^ (e2 - e))
  | _, _ => false
  end.

(** [v == n] for an [int] literal [n] *)
Definition py_eq_int (v : pyval) (n : Z) : bool :=
  match v with
  | VBool b => Z_of_bool b =? n
  | VInt m => m =? n
  | VFloat f => float_eq_Z f n
  | _ => false
  end.

(** [v == x] for a [float] literal [x] *)
Definition py_eq_float (v : pyval) (x : spec_float) : bool :=
  match v with
  | VBool b => float_eq_Z x (Z_of_bool b)
  | VInt m => float_eq_Z x m
  | VFloat f => float_eq f x
  | _ => false
  end.

(** The literal [1.0] *)
Definition float_one : spec_float := S754_finite false 1 0.

(** *** Dictionaries *)

Fixpoint dict_lookup (k : string) (d : pydict) : option pyval :=
  match d with
  | [] => None
  | (k', v) :: d' => if String.eqb k k' then Some v else dict_lookup k d'
  end.

(** ** json.dumps *)

Module json_encoder.

Definition hex_digit (n : N) : ascii :=
  ascii_of_N (if (n <? 10)%N then 48 + n else 87 + n)%N.

(** ['\\u{0:04x}'.format(n)] for [n < 256] *)
Definition escape_u (n : N) : string :=
  "\u00" +:+ String (hex_digit (n / 16)) (String (hex_digit (n mod 16)) EmptyString).

(** The replacement of one character under [ensure_ascii]: the short
    escapes of [ESCAPE_DCT], the character itself from space to [~],
    a [\uXXXX] escape otherwise. *)
Definition escape_char (c : ascii) : string :=
  let n := N_of_ascii c in
  if (n =? 92)%N then "\\"
  else if (n =? 34)%N then "\" +:+ dquote
  else if (n =? 8)%N then "\b"
  else if (n =? 12)%N then "\f"
  else if (n =? 10)%N then "\n"
  else if (n =? 13)%N then "\r"
  else if (n =? 9)%N then "\t"
  else if ((32 <=? n) && (n <=? 126))%N then String c EmptyString
  else escape_u n.

Fixpoint escape (s : string) : string :=
  match s with
  | EmptyString => EmptyString
  | String c s' => escape_char c +:+ escape s'
  end.

(** [py_encode_basestring_ascii] *)
Definition encode_basestring_ascii (s : string) : string :=
  dquote +:+ escape s +:+ dquote.

(** [int.__repr__] *)
Definition int_repr (n : Z) : string :=
  DecimalString.NilZero.string_of_int (Z.to_int n).

Fixpoint spaces (n : nat) : string :=
  match n with
  | O => EmptyString
  | S n' => String " " (spaces n')
  end.

Fixpoint join (sep : string) (l : list string) : string :=
  match l with
  | [] => EmptyString
  | [x] => x
  | x :: l' => x +:+ sep +:+ join sep l'
  end.

Section Encode.
(** [float.__repr__] on finite values *)
Variable float_repr : spec_float → string.
(** the [indent] argument, a number of spaces *)
Variable indent : nat.

Definition floatstr (f : spec_float) : string :=
  match f with
  | S754_nan => "NaN"
  | S754_infinity false => "Infinity"
  | S754_infinity true => "-Infinity"
  | _ => float_repr f
  end.

Definition newline_indent (level : nat) : string :=
  nl +:+ spaces (indent * level).

(** [_iterencode] with [indent] set: the item separator is [","]
    followed by the new line, the key separator [": "]. *)
Fixpoint iterencode (level : nat) (o : pyval) : string :=
  match o with
  | VStr s => encode_basestring_ascii s
  | VNone => "null"
  | VBool true => "true"
  | VBool false => "false"
  | VInt n => int_repr n
  | VFloat f => floatstr f
  | VList [] => "[]"
  | VList lst =>
      "[" +:+ newline_indent (S level)
      +:+ join ("," +:+ newline_indent (S level))
               (List.map (iterencode (S level)) lst)
      +:+ newline_indent level +:+ "]"
  | VDict [] => "{}"
  | VDict dct =>
      "{" +:+ newline_indent (S level)
      +:+ join ("," +:+ newline_indent (S level))
               (List.map (λ kv, encode_basestring_ascii (fst kv) +:+ ": "
                                +:+ iterencode (S level) (snd kv)) dct)
      +:+ newline_indent level +:+ "}"
  end.
End Encode.

End json_encoder.

(** [json.dumps(obj, indent=indent)] *)
Definition json_dumps (float_repr : spec_float → string) (obj : pyval) (indent : nat)
  : string :=
  json_encoder.iterencode float_repr indent 0 obj.

(** ** json.loads *)

Module json_decoder.

(** What scanning a prefix of the text gives: a value and the rest of the
    text, a [JSONDecodeError], a text this model does not cover (a
    [\uXXXX] escape of a code point above 255), or recursion cut short. *)
Inductive scan (A : Type) : Type :=
| Scanned (a : A) (rest : string)
| DecodeError
| NotCovered
| OutOfFuel.
Arguments Scanned {A} a rest.
Arguments DecodeError {A}.
Arguments NotCovered {A}.
Arguments OutOfFuel {A}.

Definition scan_bind {A B} (m : scan A) (f : A → string → scan B) : scan B :=
  match m with
  | Scanned a rest => f a rest
  | DecodeError => DecodeError
  | NotCovered => NotCovered
  | OutOfFuel => OutOfFuel
  end.

Definition is_ws (c : ascii) : bool :=
  let n := N_of_ascii c in
  ((n =? 32) || (n =? 9) || (n =? 10) || (n =? 13))%N.

(** [WHITESPACE.match(s, end).end()] *)
Fixpoint skip_ws (s : string) : string :=
  match s with
  | String c s' => if is_ws c then skip_ws s' else s
  | EmptyString => s
  end.

Fixpoint strip_prefix (p s : string) : option string :=
  match p, s with
  | EmptyString, _ => Some s
  | String a p', String b s' => if Ascii.eqb a b then strip_prefix p' s' else None
  | String _ _, EmptyString => None
  end.

Definition hex_value (c : ascii) : option N :=
  let n := N_of_ascii c in
  if ((48 <=? n) && (n <=? 57))%N then Some (n - 48)%N
  else if ((97 <=? n) && (n <=? 102))%N then Some (n - 87)%N
  else if ((65 <=? n) && (n <=? 70))%N then Some (n - 55)%N
  else None.

(** [_decode_uXXXX]: four hexadecimal digits *)
Definition decode_uXXXX (a b c d : ascii) : option N :=
  a ← hex_value a; b ← hex_value b; c ← hex_value c; d ← hex_value d;
  Some (((a * 16 + b) * 16 + c) * 16 + d)%N.

(** The table [BACKSLASH] *)
Definition BACKSLASH (esc : ascii) : option ascii :=
  let n := N_of_ascii esc in
  if (n =? 34)%N then Some esc
  else if (n =? 92)%N then Some esc
  else if (n =? 47)%N then Some esc
  else if (n =? 98)%N then Some "008"%char
  else if (n =? 102)%N then Some "012"%char
  else if (n =? 110)%N then Some "010"%char
  else if (n =? 114)%N then Some "013"%char
  else if (n =? 116)%N then Some "009"%char
  else None.

(** [scanstring] in strict mode, from behind the opening quote *)
Fixpoint scanstring (s : string) : scan string :=
  match s with
  | EmptyString => DecodeError
  | String c s' =>
      let n := N_of_ascii c in
      if (n =? 34)%N then Scanned EmptyString s'
      else if (n =? 92)%N then
        match s' with
        | EmptyString => DecodeError
        | String esc s'' =>
            if (N_of_ascii esc =? 117)%N then
              match s'' with
              | String h1 (String h2 (String h3 (String h4 s3))) =>
                  match decode_uXXXX h1 h2 h3 h4 with
                  | Some uni =>
                      if (uni <? 256)%N
                      then scan_bind (scanstring s3)
                             (λ r rest, Scanned (String (ascii_of_N uni) r) rest)
                      else NotCovered
                  | None => DecodeError
                  end
              | _ => DecodeError
              end
            else
              match BACKSLASH esc with
              | Some char =>
                  scan_bind (scanstring s'')
                    (λ r rest, Scanned (String char r) rest)
              | None => DecodeError
              end
        end
      else if (n <? 32)%N then DecodeError
      else scan_bind (scanstring s') (λ r rest, Scanned (String c r) rest)
  end.

Definition is_digit (c : ascii) : bool :=
  let n := N_of_ascii c in ((48 <=? n) && (n <=? 57))%N.

(** The longest run of digits at the head of the text, and what follows *)
Fixpoint span_digits (s : string) : string * string :=
  match s with
  | String c s' =>
      if is_digit c
      then let '(ds, rest) := span_digits s' in (String c ds, rest)
      else (EmptyString, s)
  | EmptyString => (EmptyString, s)
  end.

(** [int(digits)] *)
Fixpoint digits_value (acc : Z) (ds : string) : Z :=
  match ds with
  | EmptyString => acc
  | String c ds' => digits_value (acc * 10 + (Z.of_N (N_of_ascii c) - 48)) ds'
  end.

(** The integer part of [NUMBER_RE]: an optional minus sign, then either
    a zero or a digit from 1 to 9 with any digits behind it *)
Definition match_integer (s : string) : option (string * string) :=
  let '(sign, s1) := match strip_prefix "-" s with
                     | Some r => ("-", r)
                     | None => (EmptyString, s)
                     end in
  match s1 with
  | String c r =>
      if (N_of_ascii c =? 48)%N then Some (sign +:+ "0", r)
      else if is_digit c
           then let '(ds, rest) := span_digits s1 in Some (sign +:+ ds, rest)
           else None
  | EmptyString => None
  end.

(** The optional fraction of [NUMBER_RE]: a point and at least one digit *)
Definition match_frac (s : string) : string * string :=
  match strip_prefix "." s with
  | Some r =>
      match span_digits r with
      | (EmptyString, _) => (EmptyString, s)
      | (ds, rest) => ("." +:+ ds, rest)
      end
  | None => (EmptyString, s)
  end.

(** The optional exponent of [NUMBER_RE]: [e] or [E], an optional sign
    and at least one digit *)
Definition match_exp (s : string) : string * string :=
  match s with
  | String e r =>
      if ((N_of_ascii e =? 101) || (N_of_ascii e =? 69))%N then
        let '(sign, r1) :=
          match r with
          | String c r' =>
              if ((N_of_ascii c =? 45) || (N_of_ascii c =? 43))%N
              then (String c EmptyString, r')
              else (EmptyString, r)
          | EmptyString => (EmptyString, r)
          end in
        match span_digits r1 with
        | (EmptyString, _) => (EmptyString, s)
        | (ds, rest) => (String e (sign +:+ ds), rest)
        end
      else (EmptyString, s)
  | EmptyString => (EmptyString, s)
  end.

(** [dict(pairs)]: a key seen again keeps its place and takes the new value *)
Fixpoint dict_set (k : string) (v : pyval) (d : pydict) : pydict :=
  match d with
  | [] => [(k, v)]
  | (k', v') :: d' =>
      if String.eqb k k' then (k', v) :: d' else (k', v') :: dict_set k v d'
  end.

Definition dict_of_pairs (pairs : pydict) : pydict :=
  fold_left (λ d kv, dict_set (fst kv) (snd kv) d) pairs [].

Section Decode.
(** [float(text)] on the text of a number with a fraction or an exponent *)
Variable parse_float : string → spec_float.

(** The tail of [scan_once]: a number matching [NUMBER_RE], or one of
    the constants [NaN], [Infinity], [-Infinity] *)
Definition scan_number (s : string) : scan pyval :=
  match match_integer s with
  | Some (integer, s1) =>
      let '(frac, s2) := match_frac s1 in
      let '(exp, s3) := match_exp s2 in
      match frac, exp with
      | EmptyString, EmptyString =>
          Scanned (VInt (match strip_prefix "-" integer with
                         | Some ds => - digits_value 0 ds
                         | None => digits_value 0 integer
                         end)) s3
      | _, _ => Scanned (VFloat (parse_float (integer +:+ frac +:+ exp))) s3
      end
  | None =>
      match strip_prefix "NaN" s with
      | Some r => Scanned (VFloat S754_nan) r
      | None =>
      match strip_prefix "Infinity" s with
      | Some r => Scanned (VFloat (S754_infinity false)) r
      | None =>
      match strip_prefix "-Infinity" s with
      | Some r => Scanned (VFloat (S754_infinity true)) r
      | None => DecodeError
      end end end
  end.

(** [scan_once], with the loops of [JSONArray] (at the start of a
    value) and of [JSONObject] (behind the opening quote of a key);
    every call takes one unit of [fuel]. *)
Fixpoint scan_once (fuel : nat) (s : string) : scan pyval :=
  match fuel with
  | O => OutOfFuel
  | S fuel =>
      match s with
      | EmptyString => DecodeError
      | String nextchar s' =>
          let n := N_of_ascii nextchar in
          if (n =? 34)%N then
            scan_bind (scanstring s') (λ r rest, Scanned (VStr r) rest)
          else if (n =? 123)%N then
            match skip_ws s' with
            | String c r =>
                if (N_of_ascii c =? 125)%N then Scanned (VDict []) r
                else if (N_of_ascii c =? 34)%N then
                  scan_bind (JSONObject fuel r)
                    (λ pairs rest, Scanned (VDict (dict_of_pairs pairs)) rest)
                else DecodeError
            | EmptyString => DecodeError
            end
          else if (n =? 91)%N then
            match skip_ws s' with
            | String c r =>
                if (N_of_ascii c =? 93)%N then Scanned (VList []) r
                else scan_bind (JSONArray fuel (String c r))
                       (λ values rest, Scanned (VList values) rest)
            | EmptyString => DecodeError
            end
          else
            match strip_prefix "null" s with
            | Some r => Scanned VNone r
            | None =>
            match strip_prefix "true" s with
            | Some r => Scanned (VBool true) r
            | None =>
            match strip_prefix "false" s with
            | Some r => Scanned (VBool false) r
            | None => scan_number s
            end end end
      end
  end
with JSONArray (fuel : nat) (s : string) : scan (list pyval) :=
  match fuel with
  | O => OutOfFuel
  | S fuel =>
      scan_bind (scan_once fuel s) (λ value rest,
        match skip_ws rest with
        | String c r =>
            if (N_of_ascii c =? 93)%N then Scanned [value] r
            else if (N_of_ascii c =? 44)%N then
              scan_bind (JSONArray fuel (skip_ws r))
                (λ values rest', Scanned (value :: values) rest')
            else DecodeError
        | EmptyString => DecodeError
        end)
  end
with JSONObject (fuel : nat) (s : string) : scan pydict :=
  match fuel with
  | O => OutOfFuel
  | S fuel =>
      scan_bind (scanstring s) (λ key rest,
        match skip_ws rest with
        | String colon r =>
            if (N_of_ascii colon =? 58)%N then
              scan_bind (scan_once fuel (skip_ws r)) (λ value rest',
                match skip_ws rest' with
                | String c r' =>
                    if (N_of_ascii c =? 125)%N then Scanned [(key, value)] r'
                    else if (N_of_ascii c =? 44)%N then
                      match skip_ws r' with
                      | String q r'' =>
                          if (N_of_ascii q =? 34)%N then
                            scan_bind (JSONObject fuel r'')
                              (λ pairs rest'', Scanned ((key, value) :: pairs) rest'')
                          else DecodeError
                      | EmptyString => DecodeError
                      end
                    else DecodeError
                | EmptyString => DecodeError
                end)
            else DecodeError
        | EmptyString => DecodeError
        end)
  end.

(** [JSONDecoder.decode]: white space, one value, white space, the end *)
Definition decode (s : string) : scan pyval :=
  scan_bind (scan_once (S (String.length s)) (skip_ws s)) (λ obj rest,
    match skip_ws rest with
    | EmptyString => Scanned obj EmptyString
    | String _ _ => DecodeError
    end).
End Decode.

End json_decoder.

(** [json.loads(s)]: the value, or no value (a [JSONDecodeError], or a text
    outside of what [json_decoder] covers) *)
Definition json_loads (parse_float : string → spec_float) (s : string)
  : option pyval :=
  match json_decoder.decode parse_float s with
  | json_decoder.Scanned obj _ => Some obj
  | _ => None
  end.

(** ** Exceptions *)

(** An exception object, as far as the tools look at it: its class as
    [str(e.__class__)] names it, [str(e)], and whether the class derives
    from [Exception] (the cancellation of a coroutine, [KeyboardInterrupt] and
    [SystemExit] derive from [BaseException] only). *)
Record pyexc : Type := Exc {
  exc_class : string;
  exc_str : string;
  exc_is_Exception : bool
}.

(** [str(e.__class__)], what [f"{e.__class__}"] prints *)
Definition class_str (e : pyexc) : string :=
  "<class " +:+ squote +:+ exc_class e +:+ squote +:+ ">".

(** [KeyError(k)]; [str] of it is [repr(k)], which for a key without
    quotes, backslashes or unprintable characters is the key in single
    quotes. *)
Definition KeyError (k : string) : pyexc :=
  Exc "KeyError" (squote +:+ k +:+ squote) true.

Definition TypeError (msg : string) : pyexc := Exc "TypeError" msg true.

Definition AttributeError (msg : string) : pyexc := Exc "AttributeError" msg true.

Inductive outcome (A : Type) : Type :=
| Returned (a : A)
| Raised (e : pyexc).
Arguments Returned {A} a.
Arguments Raised {A} e.

(** ** The world outside the tools *)

(** The request handed to [session.post] *)
Record Request : Type := {
  req_method : string;
  req_url : string;
  req_json : pyval;
  req_timeout_total : Z
}.

(** The response object of a completed exchange: its status, the text
    [str()] gives for the [ClientResponseError] that aiohttp builds from
    it, and what [await response.json()] does: return the parsed body or
    raise (wrong content type, malformed JSON, ...). *)
Record Response : Type := {
  status : Z;
  status_error_str : string;
  json : outcome pyval
}.

(** [os.environ], the remote service (a transport failure is an exception
    raised in place of a response), the identifiers [uuid4] is going to
    produce, and the requests sent so far. *)
Record World : Type := {
  environ : gmap string string;
  server : Request → outcome Response;
  uuid4_values : nat → string;
  uuid4_calls : nat;
  sent : list Request
}.

(** ** Computations

    A method runs on the tool object [self] and the world, and returns or
    raises. *)
Record State (T : Type) : Type := { self : T; world : World }.
Arguments self {T} _.
Arguments world {T} _.
Arguments Build_State {T} _ _.

Definition Py (T A : Type) : Type := State T → outcome A * State T.

Section Monad.
Context {T : Type}.

#[export] Instance Py_ret : MRet (Py T) := λ A a st, (Returned a, st).

#[export] Instance Py_bind : MBind (Py T) := λ A B f m st,
  match m st with
  | (Returned a, st') => f a st'
  | (Raised e, st') => (Raised e, st')
  end.

Definition raise {A} (e : pyexc) : Py T A := λ st, (Raised e, st).

(** [try: body / except Exception as e: handler e] *)
Definition try_except_Exception {A} (body : Py T A) (handler : pyexc → Py T A)
  : Py T A :=
  λ st,
    match body st with
    | (Raised e, st') =>
        if exc_is_Exception e then handler e st' else (Raised e, st')
    | r => r
    end.

(** [self.attr] *)
Definition self_attr {A} (attr : T → A) : Py T A :=
  λ st, (Returned (attr (self st)), st).

Definition of_outcome {A} (o : outcome A) : Py T A := λ st, (o, st).

(** [os.environ.get(name, default)] *)
Definition os_environ_get (name dflt : string) : Py T string :=
  λ st, (Returned (default dflt (environ (world st) !! name)), st).

(** [str(uuid4())]: the next identifier of the world *)
Definition str_uuid4 : Py T string :=
  λ st,
    let w := world st in
    (Returned (uuid4_values w (uuid4_calls w)),
     {| self := self st;
        world := {| environ := environ w; server := server w;
                    uuid4_values := uuid4_values w;
                    uuid4_calls := S (uuid4_calls w);
                    sent := sent w |} |}).

(** [session.post(url, json=payload, timeout=ClientTimeout(total=...))]
    inside a fresh [ClientSession]: the request goes out, and the service
    answers or the transport raises. *)
Definition session_post (url : string) (payload : pyval) (total : Z)
  : Py T Response :=
  λ st,
    let w := world st in
    let r := {| req_method := "POST"; req_url := url; req_json := payload;
                req_timeout_total := total |} in
    (server w r,
     {| self := self st;
        world := {| environ := environ w; server := server w;
                    uuid4_values := uuid4_values w;
                    uuid4_calls := uuid4_calls w;
                    sent := sent w ++ [r] |} |}).

(** [response.raise_for_status()]: aiohttp raises [ClientResponseError]
    when the status is 400 or higher ([ok] is [400 > status]). *)
Definition raise_for_status (response : Response) : Py T unit :=
  if 400 <=? status response
  then raise (Exc "aiohttp.client_exceptions.ClientResponseError"
                  (status_error_str response) true)
  else mret tt.

(** [await response.json()] *)
Definition response_json (response : Response) : Py T pyval :=
  of_outcome (json response).

(** [v[k]] for a [str] key [k] *)
Definition py_getitem (v : pyval) (k : string) : Py T pyval :=
  match v with
  | VDict d =>
      match dict_lookup k d with
      | Some x => mret x
      | None => raise (KeyError k)
      end
  | VStr _ =>
      raise (TypeError ("string indices must be integers, not "
                        +:+ squote +:+ "str" +:+ squote))
  | VList _ =>
      raise (TypeError "list indices must be integers or slices, not str")
  | _ =>
      raise (TypeError (squote +:+ type_name v +:+ squote
                        +:+ " object is not subscriptable"))
  end.

(** [v.get(k, dflt)] *)
Definition py_get (v : pyval) (k : string) (dflt : pyval) : Py T pyval :=
  match v with
  | VDict d => mret (default dflt (dict_lookup k d))
  | _ =>
      raise (AttributeError (squote +:+ type_name v +:+ squote
                             +:+ " object has no attribute "
                             +:+ squote +:+ "get" +:+ squote))
  end.

(** [s + v] for a [str] [s] *)
Definition str_add (s : string) (v : pyval) : Py T string :=
  match v with
  | VStr t => mret (s +:+ t)
  | _ =>
      raise (TypeError ("can only concatenate str (not " +:+ dquote
                        +:+ type_name v +:+ dquote +:+ ") to str"))
  end.

End Monad.

(** ** The tool interface *)

(** Modelled from the spec: [OpenAIFunctionToolSchema] is declared in
    [schemas.py]; this is the ToolDescriptor of the data model: name,
    description, parameter name to (type, description), required names. *)
Record OpenAIFunctionToolSchema : Type := {
  name : string;
  description : string;
  parameters : list (string * (string * string));
  required : list string
}.

(** What [execute] returns: [(message, score, metadata)] *)
Definition ExecResult : Type := string * Z * pydict.

(** Modelled from the spec: [BaseTool] is declared in [base_tool.py]; its
    constructor keeps the configuration and the schema it is given. *)
Module BaseTool.
Record t : Type := { config : pydict; tool_schema : OpenAIFunctionToolSchema }.

Definition __init__ (config : pydict) (tool_schema : OpenAIFunctionToolSchema) : t :=
  {| config := config; tool_schema := tool_schema |}.
End BaseTool.

(** A call of the hosting runtime on a tool *)
Inductive call : Type :=
| Create (instance_id ground_truth : option string) (kwargs : pydict)
| Execute (instance_id : string) (parameters kwargs : pydict)
| Release (instance_id : string) (kwargs : pydict).

(** ** ListTool *)

Module ListTool.

Record t : Type := {
  base : BaseTool.t;
  tool_list : pyval;
  _instance_dict : gmap string pyval
}.

Definition __init__ (config : pydict) (tool_schema : OpenAIFunctionToolSchema) : t :=
  {| base := BaseTool.__init__ config tool_schema;
     tool_list :=
       VList
         [VDict
            [("name", VStr "tools/execute_fstar");
             ("description", VStr "A tool that executes the given fstar code.");
             ("parameters",
              VDict [("code", VDict [("type", VStr "string");
                                     ("description", VStr "F* code to execute")])]);
             ("required", VList [VStr "code"])]];
     _instance_dict := ∅ |}.

Definition get_openai_tool_schema (self : t) : OpenAIFunctionToolSchema :=
  BaseTool.tool_schema (base self).

(** Lines 66-68.  The body ends without a [return]: the call gives
    [None]. *)
Definition create (instance_id ground_truth : option string) (kwargs : pydict)
  : Py t pyval :=
  instance_id ← match instance_id with
                | None => str_uuid4
                | Some i => mret i
                end;
  mret VNone.

Section Execute.
(** [float.__repr__], for [json.dumps] *)
Variable float_repr : spec_float → string.

(** Lines 70-72 *)
Definition execute (instance_id : string) (parameters kwargs : pydict)
  : Py t ExecResult :=
  tool_list ← self_attr tool_list;
  mret (json_dumps float_repr tool_list 2, 0, []).
End Execute.

Definition release (instance_id : string) (kwargs : pydict) : Py t unit :=
  mret tt.

(** The state a call leaves, whether it returned or raised *)
Definition invoke (float_repr : spec_float → string) (c : call) (st : State t)
  : State t :=
  match c with
  | Create i g k => snd (create i g k st)
  | Execute i p k => snd (execute float_repr i p k st)
  | Release i k => snd (release i k st)
  end.

Definition run (float_repr : spec_float → string) (calls : list call)
  (st : State t) : State t :=
  fold_left (λ st c, invoke float_repr c st) calls st.

End ListTool.

(** ** FStarExecutionTool *)

Module FStarExecutionTool.

Record t : Type := {
  base : BaseTool.t;
  _instance_dict : gmap string pyval
}.

Definition __init__ (config : pydict) (tool_schema : OpenAIFunctionToolSchema) : t :=
  {| base := BaseTool.__init__ config tool_schema; _instance_dict := ∅ |}.

Definition get_openai_tool_schema (self : t) : OpenAIFunctionToolSchema :=
  BaseTool.tool_schema (base self).

(** Lines 100-103 *)
Definition create (instance_id ground_truth : option string) (kwargs : pydict)
  : Py t pyval :=
  instance_id ← match instance_id with
                | None => str_uuid4
                | Some i => mret i
                end;
  mret (VStr instance_id).

(** Lines 118-123, the body of the [try] of [execute]: the round trip.
    [A and B] evaluates [B] only when [A] holds. *)
Definition execute_try (url : string) (payload : pyval) : Py t ExecResult :=
  response ← session_post url payload 15;
  raise_for_status response;;
  resp_json ← response_json response;
  return_code ← py_get resp_json "return_code" (VInt (-2));
  verdict ← (if py_eq_int return_code 0
             then score ← py_get resp_json "score" VNone;
                  mret (py_eq_float score float_one)
             else mret false);
  let result_msg := "Verification Success: " +:+ str_bool verdict +:+ nl in
  messages ← py_get resp_json "messages" (VStr EmptyString);
  message ← str_add result_msg messages;
  mret (message, 0, []).

(** Line 126, the handler of [execute]: what [except Exception as e]
    returns *)
Definition execute_except (e : pyexc) : ExecResult :=
  ("Runtime error occurred." +:+ nl +:+ class_str e +:+ ": " +:+ exc_str e,
   0, []).

(** Lines 105-126.  The three lookups stand ahead of the [try]. *)
Definition execute (instance_id : string) (parameters kwargs : pydict)
  : Py t ExecResult :=
  host ← os_environ_get "FSTAR_VERIFIER_SERVER_HOST" "http://localhost:8005";
  let url := host +:+ "/check_problem_solution" in
  code ← py_getitem (VDict parameters) "code";
  tools_kwargs ← py_getitem (VDict kwargs) "tools_kwargs";
  example_name ← py_getitem tools_kwargs "example_name";
  let payload := VDict [("solution", code); ("problem_id", example_name)] in
  try_except_Exception (execute_try url payload)
                       (λ e, mret (execute_except e)).

Definition release (instance_id : string) (kwargs : pydict) : Py t unit :=
  mret tt.

(** The state a call leaves, whether it returned or raised *)
Definition invoke (c : call) (st : State t) : State t :=
  match c with
  | Create i g k => snd (create i g k st)
  | Execute i p k => snd (execute i p k st)
  | Release i k => snd (release i k st)
  end.

Definition run (calls : list call) (st : State t) : State t :=
  fold_left (λ st c, invoke c st) calls st.

End FStarExecutionTool.

(** * Vocabulary of the properties *)

(** [m] leaves the whole state as it is. *)
Definition silent {T A} (m : Py T A) : Prop := ∀ st, snd (m st) = st.

(** [m] changes neither the tool object, nor the environment, nor the
    service. *)
Definition stable {T A} (m : Py T A) : Prop :=
  ∀ st,
    self (snd (m st)) = self st
    ∧ environ (world (snd (m st))) = environ (world st)
    ∧ server (world (snd (m st))) = server (world st).

(** Whatever [m] returns satisfies [P]. *)
Definition returning {T A} (P : A → Prop) (m : Py T A) : Prop :=
  ∀ st a, fst (m st) = Returned a → P a.

(** Two worlds with the same environment and the same service *)
Definition world_sim (w1 w2 : World) : Prop :=
  environ w1 = environ w2 ∧ ∀ r, server w1 r = server w2 r.

(** [m] looks at nothing but the environment and the service: in two
    such worlds, on any two tool objects, it gives the same outcome. *)
Definition oblivious {T A} (m : Py T A) : Prop :=
  ∀ st1 st2, world_sim (world st1) (world st2) →
    fst (m st1) = fst (m st2)
    ∧ world_sim (world (snd (m st1))) (world (snd (m st2))).

(** The URL [execute] computes in a world *)
Definition verifier_url (w : World) : string :=
  default "http://localhost:8005" (environ w !! "FSTAR_VERIFIER_SERVER_HOST")
  +:+ "/check_problem_solution".

(** The request of [session.post(url, json=payload, timeout=ClientTimeout(total=15))] *)
Definition request_of (url : string) (payload : pyval) : Request :=
  {| req_method := "POST"; req_url := url; req_json := payload;
     req_timeout_total := 15 |}.

(** The state with one more request sent *)
Definition posted {T} (r : Request) (st : State T) : State T :=
  {| self := self st;
     world := {| environ := environ (world st); server := server (world st);
                 uuid4_values := uuid4_values (world st);
                 uuid4_calls := uuid4_calls (world st);
                 sent := sent (world st) ++ [r] |} |}.

(** ** A scenario

    The call of the example: the parameters [{"code": "let x = 1"}], the
    context [{"tools_kwargs": {"example_name": "problem_42"}}], and a
    service that gives one fixed answer. *)
Module Scenario.

Definition schema : OpenAIFunctionToolSchema :=
  {| name := "tools/execute_fstar";
     description := "A tool that executes the given fstar code.";
     parameters := [("code", ("string", "F* code to execute"))];
     required := ["code"] |}.

Definition parameters : pydict := [("code", VStr "let x = 1")].

Definition kwargs : pydict :=
  [("tools_kwargs", VDict [("example_name", VStr "problem_42")])].

Definition payload : pyval :=
  VDict [("solution", VStr "let x = 1"); ("problem_id", VStr "problem_42")].

Definition uuids (n : nat) : string :=
  "00000000-0000-4000-8000-" +:+ DecimalString.NilZero.string_of_uint (Nat.to_uint n).

Definition world_with (reply : outcome Response) : World :=
  {| environ := ∅; server := λ _, reply; uuid4_values := uuids;
     uuid4_calls := 0; sent := [] |}.

(** The same service later on: identifiers drawn, requests sent *)
Definition world_later (reply : outcome Response) : World :=
  {| environ := ∅; server := λ _, reply; uuid4_values := uuids;
     uuid4_calls := 7;
     sent := [{| req_method := "POST";
                 req_url := "http://localhost:8005/check_problem_solution";
                 req_json := payload; req_timeout_total := 15 |}] |}.

Definition fstar (reply : outcome Response) : State FStarExecutionTool.t :=
  {| self := FStarExecutionTool.__init__ [] schema; world := world_with reply |}.

Definition quoted (s : string) : string := dquote +:+ s +:+ dquote.

(** The text [json.dumps(tool_list, indent=2)] prints, line by line *)
Definition catalog_text : string :=
  json_encoder.join nl
    [ "[";
      "  {";
      "    " +:+ quoted "name" +:+ ": " +:+ quoted "tools/execute_fstar" +:+ ",";
      "    " +:+ quoted "description" +:+ ": "
        +:+ quoted "A tool that executes the given fstar code." +:+ ",";
      "    " +:+ quoted "parameters" +:+ ": {";
      "      " +:+ quoted "code" +:+ ": {";
      "        " +:+ quoted "type" +:+ ": " +:+ quoted "string" +:+ ",";
      "        " +:+ quoted "description" +:+ ": " +:+ quoted "F* code to execute";
      "      }";
      "    },";
      "    " +:+ quoted "required" +:+ ": [";
      "      " +:+ quoted "code";
      "    ]";
      "  }";
      "]" ].

(** A response with a JSON body *)
Definition response (code : Z) (body : pyval) : Response :=
  {| status := code;
     status_error_str :=
       json_encoder.int_repr code
       +:+ ", message='', url='http://localhost:8005/check_problem_solution'";
     json := Returned body |}.

(** [{"return_code": 0, "score": 1.0, "messages": "OK"}] *)
Definition reply_ok : pydict :=
  [("return_code", VInt 0); ("score", VFloat float_one); ("messages", VStr "OK")].

(** The coroutine is cancelled while it awaits the response. *)
Definition CancelledError : pyexc :=
  Exc "asyncio.exceptions.CancelledError" EmptyString false.

Definition TimeoutError : pyexc := Exc "TimeoutError" EmptyString true.

End Scenario.

(** * Vocabulary of the further properties *)

(** [m] sends no request. *)
Definition offline {T A} (m : Py T A) : Prop :=
  ∀ st, sent (world (snd (m st))) = sent (world st).

(** [m] keeps the sequence of [uuid4] and never steps back in it. *)
Definition drawing {T A} (m : Py T A) : Prop :=
  ∀ st,
    uuid4_values (world (snd (m st))) = uuid4_values (world st)
    ∧ (uuid4_calls (world st) ≤ uuid4_calls (world (snd (m st))))%nat.

(** The number of [execute] calls in a sequence of calls *)
Fixpoint executes (calls : list call) : nat :=
  match calls with
  | [] => O
  | Execute _ _ _ :: calls' => S (executes calls')
  | _ :: calls' => executes calls'
  end.

(** Further answers of the service, for the scenario *)
Module Answers.

(** [response.json()] raises on a body that is not JSON. *)
Definition JSONDecodeError : pyexc :=
  Exc "json.decoder.JSONDecodeError"
      "Expecting value: line 1 column 1 (char 0)" true.

(** A response whose body cannot be read as JSON *)
Definition unreadable (code : Z) : Response :=
  {| status := code;
     status_error_str :=
       json_encoder.int_repr code
       +:+ ", message='', url='http://localhost:8005/check_problem_solution'";
     json := Raised JSONDecodeError |}.

End Answers.

(** * Properties *)

(** ** What a computation leaves alone *)

Section Frame.
Context {T : Type}.

Lemma silent_ret {A} (a : A) : silent (mret a : Py T A).
Proof. by intros st. Qed.

Lemma silent_raise {A} (e : pyexc) : silent (raise e : Py T A).
Proof. by intros st. Qed.

Lemma silent_bind {A B} (m : Py T A) (f : A → Py T B) :
  silent m → (∀ a, silent (f a)) → silent (m ≫= f).
Proof.
  intros Hm Hf st. unfold mbind, Py_bind.
  specialize (Hm st). destruct (m st) as [[a|e] st']; simpl in *; subst.
  - apply Hf.
  - done.
Qed.

Lemma silent_try {A} (body : Py T A) (handler : pyexc → Py T A) :
  silent body → (∀ e, silent (handler e)) →
  silent (try_except_Exception body handler).
Proof.
  intros Hb Hh st. unfold try_except_Exception.
  specialize (Hb st). destruct (body st) as [[a|e] st']; simpl in *; subst.
  - done.
  - destruct (exc_is_Exception e); [apply Hh | done].
Qed.

Lemma silent_self_attr {A} (attr : T → A) : silent (self_attr attr).
Proof. by intros st. Qed.

Lemma silent_of_outcome {A} (o : outcome A) : silent (of_outcome o : Py T A).
Proof. by intros st. Qed.

Lemma silent_os_environ_get name dflt : silent (os_environ_get (T:=T) name dflt).
Proof. by intros st. Qed.

Lemma silent_raise_for_status response :
  silent (raise_for_status (T:=T) response).
Proof.
  unfold raise_for_status.
  destruct (400 <=? status response); [apply silent_raise | apply silent_ret].
Qed.

Lemma silent_response_json response : silent (response_json (T:=T) response).
Proof. apply silent_of_outcome. Qed.

Lemma silent_py_getitem v k : silent (py_getitem (T:=T) v k).
Proof.
  destruct v; simpl; try apply silent_raise.
  destruct (dict_lookup k d); [apply silent_ret | apply silent_raise].
Qed.

Lemma silent_py_get v k dflt : silent (py_get (T:=T) v k dflt).
Proof. destruct v; simpl; try apply silent_raise. apply silent_ret. Qed.

Lemma silent_str_add s v : silent (str_add (T:=T) s v).
Proof. destruct v; simpl; try apply silent_raise. apply silent_ret. Qed.

Lemma silent_stable {A} (m : Py T A) : silent m → stable m.
Proof. intros Hm st. by rewrite Hm. Qed.

Lemma stable_bind {A B} (m : Py T A) (f : A → Py T B) :
  stable m → (∀ a, stable (f a)) → stable (m ≫= f).
Proof.
  intros Hm Hf st. unfold mbind, Py_bind.
  destruct (Hm st) as (Hs & He & Hv).
  destruct (m st) as [[a|e] st']; simpl in *.
  - destruct (Hf a st') as (Hs' & He' & Hv'). by rewrite Hs', He', Hv'.
  - done.
Qed.

Lemma stable_try {A} (body : Py T A) (handler : pyexc → Py T A) :
  stable body → (∀ e, stable (handler e)) →
  stable (try_except_Exception body handler).
Proof.
  intros Hb Hh st. unfold try_except_Exception.
  destruct (Hb st) as (Hs & He & Hv).
  destruct (body st) as [[a|e] st']; simpl in *; [done|].
  destruct (exc_is_Exception e); [|done].
  destruct (Hh e st') as (Hs' & He' & Hv'). by rewrite Hs', He', Hv'.
Qed.

Lemma stable_str_uuid4 : stable (str_uuid4 (T:=T)).
Proof. by intros st. Qed.

Lemma stable_session_post url payload total :
  stable (session_post (T:=T) url payload total).
Proof. by intros st. Qed.

(** Behind [m], silent steps leave the state [m] left. *)
Lemma bind_silent_state {A B} (m : Py T A) (f : A → Py T B) st :
  (∀ a, silent (f a)) → snd ((m ≫= f) st) = snd (m st).
Proof.
  intros Hf. unfold mbind, Py_bind.
  destruct (m st) as [[a|e] st']; simpl; [apply Hf | done].
Qed.

(** A silent handler leaves the state the body left. *)
Lemma try_silent_state {A} (body : Py T A) (handler : pyexc → Py T A) st :
  (∀ e, silent (handler e)) →
  snd (try_except_Exception body handler st) = snd (body st).
Proof.
  intros Hh. unfold try_except_Exception.
  destruct (body st) as [[a|e] st']; simpl; [done|].
  destruct (exc_is_Exception e); [apply Hh | done].
Qed.

End Frame.

Create HintDb py_frame.
#[export] Hint Resolve silent_ret silent_raise silent_self_attr silent_of_outcome
  silent_os_environ_get silent_raise_for_status silent_response_json
  silent_py_getitem silent_py_get silent_str_add
  stable_str_uuid4 stable_session_post : py_frame.

(** Splits a computation along its binds and branches *)
Ltac frame_steps :=
  repeat first
    [ apply silent_bind; [| intros ?]
    | apply silent_try; [| intros ?]
    | apply stable_bind; [| intros ?]
    | apply stable_try; [| intros ?]
    | match goal with
      | |- silent (if ?b then _ else _) => destruct b
      | |- stable (if ?b then _ else _) => destruct b
      | |- stable (match ?o with Some _ => _ | None => _ end) => destruct o
      end
    | solve [auto with py_frame]
    | solve [apply silent_stable; auto with py_frame] ].

(** ** What a computation returns *)

Section Post.
Context {T : Type}.

Lemma returning_ret {A} (P : A → Prop) a : P a → returning P (mret a : Py T A).
Proof. intros Ha st a' [= <-]. done. Qed.

Lemma returning_bind {A B} (P : B → Prop) (m : Py T A) (f : A → Py T B) :
  (∀ a, returning P (f a)) → returning P (m ≫= f).
Proof.
  intros Hf st b. unfold mbind, Py_bind.
  destruct (m st) as [[a|e] st']; simpl; [apply Hf | done].
Qed.

Lemma returning_try {A} (P : A → Prop) (body : Py T A) handler :
  returning P body → (∀ e, returning P (handler e)) →
  returning P (try_except_Exception body handler).
Proof.
  intros Hb Hh st a. unfold try_except_Exception.
  specialize (Hb st). destruct (body st) as [[a'|e] st']; simpl in *.
  - apply Hb.
  - destruct (exc_is_Exception e); [apply Hh | done].
Qed.

End Post.

(** ** What a computation depends on *)

Section Rel.
Context {T : Type}.

Lemma world_sim_refl w : world_sim w w.
Proof. by split. Qed.

Lemma oblivious_ret {A} (a : A) : oblivious (mret a : Py T A).
Proof. by intros st1 st2 H. Qed.

Lemma oblivious_raise {A} e : oblivious (raise e : Py T A).
Proof. by intros st1 st2 H. Qed.

Lemma oblivious_bind {A B} (m : Py T A) (f : A → Py T B) :
  oblivious m → (∀ a, oblivious (f a)) → oblivious (m ≫= f).
Proof.
  intros Hm Hf st1 st2 H. unfold mbind, Py_bind.
  destruct (Hm st1 st2 H) as [Hr Hw].
  destruct (m st1) as [[a1|e1] st1'], (m st2) as [[a2|e2] st2'];
    simpl in *; simplify_eq; [by apply Hf | done].
Qed.

Lemma oblivious_try {A} (body : Py T A) handler :
  oblivious body → (∀ e, oblivious (handler e)) →
  oblivious (try_except_Exception body handler).
Proof.
  intros Hm Hf st1 st2 H. unfold try_except_Exception.
  destruct (Hm st1 st2 H) as [Hr Hw].
  destruct (body st1) as [[a1|e1] st1'], (body st2) as [[a2|e2] st2'];
    simpl in *; simplify_eq; [done|].
  destruct (exc_is_Exception e2); [by apply Hf | done].
Qed.

Lemma oblivious_of_outcome {A} (o : outcome A) :
  oblivious (of_outcome o : Py T A).
Proof. by intros st1 st2 H. Qed.

Lemma oblivious_os_environ_get name dflt :
  oblivious (os_environ_get (T:=T) name dflt).
Proof. intros st1 st2 [He Hs]. unfold os_environ_get; simpl. by rewrite He. Qed.

Lemma oblivious_session_post url payload total :
  oblivious (session_post (T:=T) url payload total).
Proof. intros st1 st2 [He Hs]. unfold session_post; simpl. by rewrite Hs. Qed.

Lemma oblivious_raise_for_status response :
  oblivious (raise_for_status (T:=T) response).
Proof.
  unfold raise_for_status.
  destruct (400 <=? _); [apply oblivious_raise | apply oblivious_ret].
Qed.

Lemma oblivious_response_json response :
  oblivious (response_json (T:=T) response).
Proof. apply oblivious_of_outcome. Qed.

Lemma oblivious_py_getitem v k : oblivious (py_getitem (T:=T) v k).
Proof.
  destruct v; simpl; try apply oblivious_raise.
  destruct (dict_lookup k d); [apply oblivious_ret | apply oblivious_raise].
Qed.

Lemma oblivious_py_get v k dflt : oblivious (py_get (T:=T) v k dflt).
Proof. destruct v; simpl; try apply oblivious_raise. apply oblivious_ret. Qed.

Lemma oblivious_str_add s v : oblivious (str_add (T:=T) s v).
Proof. destruct v; simpl; try apply oblivious_raise. apply oblivious_ret. Qed.

End Rel.

Create HintDb py_rel.
#[export] Hint Resolve oblivious_ret oblivious_raise oblivious_of_outcome
  oblivious_os_environ_get oblivious_session_post oblivious_raise_for_status
  oblivious_response_json oblivious_py_getitem oblivious_py_get
  oblivious_str_add : py_rel.

Ltac oblivious_steps :=
  repeat first
    [ apply oblivious_bind; [| intros ?]
    | apply oblivious_try; [| intros ?]
    | match goal with
      | |- oblivious (if ?b then _ else _) => destruct b
      end
    | solve [auto with py_rel] ].

Lemma string_app_assoc (s1 s2 s3 : string) :
  (s1 +:+ s2) +:+ s3 = s1 +:+ (s2 +:+ s3).
Proof.
  induction s1 as [|c s1 IH]; [reflexivity|].
  change (String c ((s1 +:+ s2) +:+ s3) = String c (s1 +:+ (s2 +:+ s3))).
  by rewrite IH.
Qed.

(** ** The tools, call by call *)

Lemma FStar_create_stable i g k : stable (FStarExecutionTool.create i g k).
Proof. unfold FStarExecutionTool.create. frame_steps. Qed.

Lemma FStar_execute_stable i p k : stable (FStarExecutionTool.execute i p k).
Proof.
  unfold FStarExecutionTool.execute, FStarExecutionTool.execute_try.
  frame_steps.
Qed.

Lemma FStar_release_silent i k : silent (FStarExecutionTool.release i k).
Proof. unfold FStarExecutionTool.release. frame_steps. Qed.

Lemma ListTool_create_stable i g k : stable (ListTool.create i g k).
Proof. unfold ListTool.create. frame_steps. Qed.

Lemma ListTool_execute_silent fr i p k : silent (ListTool.execute fr i p k).
Proof. unfold ListTool.execute. frame_steps. Qed.

Lemma ListTool_release_silent i k : silent (ListTool.release i k).
Proof. unfold ListTool.release. frame_steps. Qed.

(** A call, and so a sequence of calls, leaves the tool object, the
    environment and the service as they were. *)
Lemma FStar_invoke_stable c st :
  self (FStarExecutionTool.invoke c st) = self st
  ∧ world_sim (world (FStarExecutionTool.invoke c st)) (world st).
Proof.
  assert (∀ A (m : Py FStarExecutionTool.t A), stable m →
            self (snd (m st)) = self st ∧ world_sim (world (snd (m st))) (world st))
    as Hst.
  { intros A m Hm. destruct (Hm st) as (Hs & He & Hv).
    repeat split; [done..|]. intros r. by rewrite Hv. }
  destruct c as [i g k|i p k|i k]; unfold FStarExecutionTool.invoke; apply Hst.
  - apply FStar_create_stable.
  - apply FStar_execute_stable.
  - apply silent_stable, FStar_release_silent.
Qed.

Lemma world_sim_trans w1 w2 w3 : world_sim w1 w2 → world_sim w2 w3 → world_sim w1 w3.
Proof.
  intros [He Hs] [He' Hs']. split; [congruence|]. intros r. by rewrite Hs.
Qed.

Lemma world_sim_sym w1 w2 : world_sim w1 w2 → world_sim w2 w1.
Proof. intros [He Hs]. by split. Qed.

Lemma FStar_run_stable calls st :
  self (FStarExecutionTool.run calls st) = self st
  ∧ world_sim (world (FStarExecutionTool.run calls st)) (world st).
Proof.
  revert st. induction calls as [|c calls IH]; intros st.
  - split; [done | apply world_sim_refl].
  - change (FStarExecutionTool.run (c :: calls) st)
      with (FStarExecutionTool.run calls (FStarExecutionTool.invoke c st)).
    destruct (IH (FStarExecutionTool.invoke c st)) as [Hs Hw].
    destruct (FStar_invoke_stable c st) as [Hs' Hw'].
    split; [congruence | by eapply world_sim_trans].
Qed.

Lemma ListTool_invoke_stable fr c st :
  self (ListTool.invoke fr c st) = self st
  ∧ world_sim (world (ListTool.invoke fr c st)) (world st).
Proof.
  assert (∀ A (m : Py ListTool.t A), stable m →
            self (snd (m st)) = self st ∧ world_sim (world (snd (m st))) (world st))
    as Hst.
  { intros A m Hm. destruct (Hm st) as (Hs & He & Hv).
    repeat split; [done..|]. intros r. by rewrite Hv. }
  destruct c as [i g k|i p k|i k]; unfold ListTool.invoke; apply Hst.
  - apply ListTool_create_stable.
  - apply silent_stable, ListTool_execute_silent.
  - apply silent_stable, ListTool_release_silent.
Qed.

Lemma ListTool_run_stable fr calls st :
  self (ListTool.run fr calls st) = self st
  ∧ world_sim (world (ListTool.run fr calls st)) (world st).
Proof.
  revert st. induction calls as [|c calls IH]; intros st.
  - split; [done | apply world_sim_refl].
  - change (ListTool.run fr (c :: calls) st)
      with (ListTool.run fr calls (ListTool.invoke fr c st)).
    destruct (IH (ListTool.invoke fr c st)) as [Hs Hw].
    destruct (ListTool_invoke_stable fr c st) as [Hs' Hw'].
    split; [congruence | by eapply world_sim_trans].
Qed.

Lemma FStar_execute_oblivious i p k : oblivious (FStarExecutionTool.execute i p k).
Proof.
  unfold FStarExecutionTool.execute, FStarExecutionTool.execute_try.
  oblivious_steps.
Qed.

Lemma FStar_execute_returning i p k :
  returning (λ r : ExecResult, r.1.2 = 0 ∧ r.2 = [])
            (FStarExecutionTool.execute i p k).
Proof.
  unfold FStarExecutionTool.execute, FStarExecutionTool.execute_try.
  repeat first [ apply returning_bind; intros ?
               | apply returning_try; [| intros ?]
               | by apply returning_ret ].
Qed.

(** With the three entries present, [execute] is its [try] statement. *)
Lemma FStar_execute_keys st i p k code tk ename :
  dict_lookup "code" p = Some code →
  dict_lookup "tools_kwargs" k = Some (VDict tk) →
  dict_lookup "example_name" tk = Some ename →
  FStarExecutionTool.execute i p k st
  = try_except_Exception
      (FStarExecutionTool.execute_try (verifier_url (world st))
         (VDict [("solution", code); ("problem_id", ename)]))
      (λ e, mret (FStarExecutionTool.execute_except e)) st.
Proof.
  intros Hc Ht He.
  unfold FStarExecutionTool.execute, mbind, Py_bind, os_environ_get, py_getitem.
  cbn [fst snd]. rewrite Hc.
  unfold mret at 1; unfold Py_ret at 1. rewrite Ht.
  unfold mret at 1; unfold Py_ret at 1. rewrite He.
  reflexivity.
Qed.

(** The round trip sends one request. *)
Lemma FStar_execute_try_state url payload st :
  snd (FStarExecutionTool.execute_try url payload st)
  = posted (request_of url payload) st.
Proof.
  unfold FStarExecutionTool.execute_try. rewrite bind_silent_state; [done|].
  intros response. frame_steps.
Qed.

(** The round trip when the transport raises *)
Lemma FStar_execute_try_transport url payload st e :
  server (world st) (request_of url payload) = Raised e →
  FStarExecutionTool.execute_try url payload st
  = (Raised e, posted (request_of url payload) st).
Proof.
  intros Hs. unfold FStarExecutionTool.execute_try, mbind, Py_bind, session_post.
  fold (request_of url payload). by rewrite Hs.
Qed.

(** The round trip on a status of 400 or more *)
Lemma FStar_execute_try_status url payload st response :
  server (world st) (request_of url payload) = Returned response →
  400 ≤ status response →
  FStarExecutionTool.execute_try url payload st
  = (Raised (Exc "aiohttp.client_exceptions.ClientResponseError"
                 (status_error_str response) true),
     posted (request_of url payload) st).
Proof.
  intros Hs Hc. unfold FStarExecutionTool.execute_try, mbind, Py_bind, session_post.
  fold (request_of url payload). rewrite Hs. unfold raise_for_status.
  destruct (Z.leb_spec 400 (status response)) as [_|]; [done | lia].
Qed.

(** The round trip on a status below 400 with a JSON object as body *)
Lemma FStar_execute_try_object url payload st response d :
  server (world st) (request_of url payload) = Returned response →
  status response < 400 →
  json response = Returned (VDict d) →
  FStarExecutionTool.execute_try url payload st
  = (match default (VStr EmptyString) (dict_lookup "messages" d) with
     | VStr m =>
         Returned ("Verification Success: "
                   +:+ str_bool (py_eq_int (default (VInt (-2)) (dict_lookup "return_code" d)) 0
                                 && py_eq_float (default VNone (dict_lookup "score" d)) float_one)
                   +:+ nl +:+ m, 0, [])
     | v => Raised (TypeError ("can only concatenate str (not " +:+ dquote
                               +:+ type_name v +:+ dquote +:+ ") to str"))
     end,
     posted (request_of url payload) st).
Proof.
  intros Hs Hc Hj. unfold FStarExecutionTool.execute_try, mbind, Py_bind, session_post.
  fold (request_of url payload). rewrite Hs. unfold raise_for_status.
  destruct (Z.leb_spec 400 (status response)) as [|_]; [lia|].
  unfold response_json, of_outcome. rewrite Hj.
  unfold py_get; cbn [fst snd mret Py_ret].
  destruct (py_eq_int _ 0); cbn [andb];
    destruct (default (VStr EmptyString) (dict_lookup "messages" d)); try reflexivity.
  all: unfold str_add, mret, Py_ret; by rewrite !string_app_assoc.
Qed.

(** A transport failure deriving from [Exception] goes through the
    handler. *)
Lemma FStar_execute_transport_error st i p k code tk ename e :
  dict_lookup "code" p = Some code →
  dict_lookup "tools_kwargs" k = Some (VDict tk) →
  dict_lookup "example_name" tk = Some ename →
  server (world st)
    (request_of (verifier_url (world st))
                (VDict [("solution", code); ("problem_id", ename)]))
  = Raised e →
  exc_is_Exception e = true →
  fst (FStarExecutionTool.execute i p k st)
  = Returned (FStarExecutionTool.execute_except e).
Proof.
  intros Hc Ht He Hs Hx.
  rewrite (FStar_execute_keys st i p k code tk ename Hc Ht He).
  unfold try_except_Exception.
  by rewrite (FStar_execute_try_transport _ _ st e Hs), Hx.
Qed.

(** The text of the catalog, as [json.dumps] lays it out *)
Lemma ListTool_catalog_text float_repr config schema :
  json_dumps float_repr (ListTool.tool_list (ListTool.__init__ config schema)) 2
  = Scenario.catalog_text.
Proof. vm_compute. reflexivity. Qed.

(** ** FStarExecutionTool.execute and exceptions *)

(** C1, as the code has it: when [parameters] has a ["code"] entry and the
    extra keywords have a [tools_kwargs] mapping with an ["example_name"]
    entry, no exception deriving from [Exception] leaves [execute], and an
    exception of that kind raised anywhere in the round trip (the [try]
    block) becomes the returned triple
    [("Runtime error occurred.\n<class>: <detail>", 0, {})]. *)
Theorem C1_execute_absorbs_Exception st i p k code tk ename :
  dict_lookup "code" p = Some code →
  dict_lookup "tools_kwargs" k = Some (VDict tk) →
  dict_lookup "example_name" tk = Some ename →
  (∀ e, fst (FStarExecutionTool.execute i p k st) = Raised e →
        exc_is_Exception e = false)
  ∧ (∀ e st',
       FStarExecutionTool.execute_try (verifier_url (world st))
         (VDict [("solution", code); ("problem_id", ename)]) st
       = (Raised e, st') →
       exc_is_Exception e = true →
       FStarExecutionTool.execute i p k st
       = (Returned ("Runtime error occurred." +:+ nl +:+ class_str e +:+ ": "
                    +:+ exc_str e, 0, []), st')).
Proof.
  intros Hc Ht He. rewrite (FStar_execute_keys st i p k code tk ename Hc Ht He).
  unfold try_except_Exception.
  destruct (FStarExecutionTool.execute_try _ _ st) as [[r|e0] st0]; split.
  - intros e [=].
  - intros e st' [=].
  - intros e. destruct (exc_is_Exception e0) eqn:E; [intros [=]|].
    intros [= <-]. done.
  - intros e st' [= -> ->] ->. reflexivity.
Qed.

Lemma C1_execute_absorbs_Exception_witness :
  dict_lookup "code" Scenario.parameters = Some (VStr "let x = 1")
  ∧ dict_lookup "tools_kwargs" Scenario.kwargs
    = Some (VDict [("example_name", VStr "problem_42")])
  ∧ dict_lookup "example_name" [("example_name", VStr "problem_42")]
    = Some (VStr "problem_42")
  ∧ FStarExecutionTool.execute "instance" Scenario.parameters Scenario.kwargs
      (Scenario.fstar (Raised Scenario.TimeoutError))
    = (Returned ("Runtime error occurred." +:+ nl +:+ "<class 'TimeoutError'>: ",
                 0, []),
       posted (request_of "http://localhost:8005/check_problem_solution"
                          Scenario.payload)
              (Scenario.fstar (Raised Scenario.TimeoutError))).
Proof.
  split; [reflexivity|]. split; [reflexivity|]. split; [reflexivity|].
  exact (proj2 (C1_execute_absorbs_Exception
                  (Scenario.fstar (Raised Scenario.TimeoutError)) "instance"
                  Scenario.parameters Scenario.kwargs (VStr "let x = 1")
                  [("example_name", VStr "problem_42")] (VStr "problem_42")
                  eq_refl eq_refl eq_refl)
               Scenario.TimeoutError _ eq_refl eq_refl).
Defined.

(** C1 as stated fails: without a ["code"] entry the [KeyError] of
    [parameters["code"]], raised ahead of the [try], leaves [execute]; and
    a cancellation of the coroutine during the round trip, which does not
    derive from [Exception], leaves it too. *)
Lemma C1_execute_raises :
  fst (FStarExecutionTool.execute "instance" [] Scenario.kwargs
         (Scenario.fstar (Raised Scenario.TimeoutError)))
  = Raised (KeyError "code")
  ∧ fst (FStarExecutionTool.execute "instance" Scenario.parameters Scenario.kwargs
           (Scenario.fstar (Raised Scenario.CancelledError)))
    = Raised Scenario.CancelledError.
Proof. split; reflexivity. Qed.

(** ** The verdict *)

(** C2, as the code has it: when the three entries are present, the
    status is 2xx, the body parses as a JSON object and its [messages] is
    absent or a string, [execute] returns
    ["Verification Success: " + verdict + "\n" + messages] with score 0
    and empty metadata, where the verdict is [True] iff [return_code]
    ([-2] when absent) [== 0] and [score == 1.0] (an absent score gives
    [False]) and [messages] is empty when absent. *)
Theorem C2_verdict_message st i p k code tk ename response d :
  dict_lookup "code" p = Some code →
  dict_lookup "tools_kwargs" k = Some (VDict tk) →
  dict_lookup "example_name" tk = Some ename →
  server (world st)
    (request_of (verifier_url (world st))
                (VDict [("solution", code); ("problem_id", ename)]))
  = Returned response →
  200 ≤ status response < 300 →
  json response = Returned (VDict d) →
  (dict_lookup "messages" d = None
   ∨ ∃ m, dict_lookup "messages" d = Some (VStr m)) →
  let verdict :=
    py_eq_int (default (VInt (-2)) (dict_lookup "return_code" d)) 0
    && match dict_lookup "score" d with
       | Some score => py_eq_float score float_one
       | None => false
       end in
  let messages :=
    match dict_lookup "messages" d with
    | Some (VStr m) => m
    | _ => EmptyString
    end in
  fst (FStarExecutionTool.execute i p k st)
  = Returned ("Verification Success: " +:+ str_bool verdict +:+ nl +:+ messages,
              0, []).
Proof.
  intros Hc Ht He Hs Hst Hj Hm verdict messages.
  rewrite (FStar_execute_keys st i p k code tk ename Hc Ht He).
  unfold try_except_Exception.
  rewrite (FStar_execute_try_object _ _ st response d Hs ltac:(lia) Hj).
  subst verdict messages.
  destruct Hm as [Hm|[m Hm]]; rewrite Hm; simpl;
    by destruct (dict_lookup "score" d).
Qed.

Lemma C2_verdict_message_witness :
  dict_lookup "code" Scenario.parameters = Some (VStr "let x = 1")
  ∧ dict_lookup "tools_kwargs" Scenario.kwargs
    = Some (VDict [("example_name", VStr "problem_42")])
  ∧ dict_lookup "example_name" [("example_name", VStr "problem_42")]
    = Some (VStr "problem_42")
  ∧ 200 ≤ status (Scenario.response 200 (VDict Scenario.reply_ok)) < 300
  ∧ fst (FStarExecutionTool.execute "instance" Scenario.parameters Scenario.kwargs
           (Scenario.fstar (Returned (Scenario.response 200 (VDict Scenario.reply_ok)))))
    = Returned ("Verification Success: True" +:+ nl +:+ "OK", 0, []).
Proof.
  split; [reflexivity|]. split; [reflexivity|]. split; [reflexivity|].
  split; [simpl; lia|].
  exact (C2_verdict_message
           (Scenario.fstar (Returned (Scenario.response 200 (VDict Scenario.reply_ok))))
           "instance" Scenario.parameters Scenario.kwargs (VStr "let x = 1")
           [("example_name", VStr "problem_42")] (VStr "problem_42")
           (Scenario.response 200 (VDict Scenario.reply_ok)) Scenario.reply_ok
           eq_refl eq_refl eq_refl eq_refl ltac:(simpl; lia) eq_refl
           (or_intror (ex_intro _ "OK" eq_refl))).
Defined.

(** C2 as stated fails: a 2xx response whose body parses as the JSON
    array [[]], or as an object with [messages] set to [null], gives the
    runtime-error message, not a verdict. *)
Lemma C2_body_without_verdict :
  fst (FStarExecutionTool.execute "instance" Scenario.parameters Scenario.kwargs
         (Scenario.fstar (Returned (Scenario.response 200 (VList [])))))
  = Returned ("Runtime error occurred." +:+ nl
              +:+ "<class 'AttributeError'>: 'list' object has no attribute 'get'",
              0, [])
  ∧ fst (FStarExecutionTool.execute "instance" Scenario.parameters Scenario.kwargs
           (Scenario.fstar
              (Returned (Scenario.response 200
                           (VDict [("return_code", VInt 0);
                                   ("score", VFloat float_one);
                                   ("messages", VNone)])))))
    = Returned ("Runtime error occurred." +:+ nl
                +:+ "<class 'TypeError'>: can only concatenate str (not "
                +:+ dquote +:+ "NoneType" +:+ dquote +:+ ") to str",
                0, []).
Proof. split; reflexivity. Qed.

(** ** The score *)

(** C4: whenever [execute] returns a triple, on whichever path, its score
    is 0 and its metadata the empty mapping. *)
Theorem C4_score_zero_metadata_empty st i p k message score metadata :
  fst (FStarExecutionTool.execute i p k st) = Returned (message, score, metadata) →
  score = 0 ∧ metadata = [].
Proof. intros H. exact (FStar_execute_returning i p k st _ H). Qed.

Lemma C4_score_zero_metadata_empty_witness :
  fst (FStarExecutionTool.execute "instance" Scenario.parameters Scenario.kwargs
         (Scenario.fstar (Returned (Scenario.response 200
                                      (VDict [("return_code", VInt 1)])))))
  = Returned ("Verification Success: False" +:+ nl, 0, [])
  ∧ 0 = 0 ∧ ([] : pydict) = [].
Proof.
  split; [reflexivity|].
  exact (C4_score_zero_metadata_empty
           (Scenario.fstar (Returned (Scenario.response 200
                                        (VDict [("return_code", VInt 1)]))))
           "instance" Scenario.parameters Scenario.kwargs
           ("Verification Success: False" +:+ nl) 0 [] eq_refl).
Defined.

(** ** HTTP statuses *)

(** C5, as the code has it: when the three entries are present and the
    service answers with a status of 400 or more, [execute] returns the
    runtime-error message of the [ClientResponseError] that
    [raise_for_status] raises, which begins with
    ["Runtime error occurred."], with score 0 and empty metadata. *)
Theorem C5_status_400_runtime_error st i p k code tk ename response :
  dict_lookup "code" p = Some code →
  dict_lookup "tools_kwargs" k = Some (VDict tk) →
  dict_lookup "example_name" tk = Some ename →
  server (world st)
    (request_of (verifier_url (world st))
                (VDict [("solution", code); ("problem_id", ename)]))
  = Returned response →
  400 ≤ status response →
  ∃ message,
    fst (FStarExecutionTool.execute i p k st) = Returned (message, 0, [])
    ∧ message
      = "Runtime error occurred." +:+ nl
        +:+ "<class 'aiohttp.client_exceptions.ClientResponseError'>: "
        +:+ status_error_str response
    ∧ String.prefix "Runtime error occurred." message = true.
Proof.
  intros Hc Ht He Hs Hst. eexists. split; [|split; reflexivity].
  rewrite (FStar_execute_keys st i p k code tk ename Hc Ht He).
  unfold try_except_Exception.
  by rewrite (FStar_execute_try_status _ _ st response Hs Hst).
Qed.

Lemma C5_status_400_runtime_error_witness :
  dict_lookup "code" Scenario.parameters = Some (VStr "let x = 1")
  ∧ dict_lookup "tools_kwargs" Scenario.kwargs
    = Some (VDict [("example_name", VStr "problem_42")])
  ∧ dict_lookup "example_name" [("example_name", VStr "problem_42")]
    = Some (VStr "problem_42")
  ∧ 400 ≤ status (Scenario.response 500 (VDict Scenario.reply_ok))
  ∧ ∃ message,
      fst (FStarExecutionTool.execute "instance" Scenario.parameters Scenario.kwargs
             (Scenario.fstar (Returned (Scenario.response 500 (VDict Scenario.reply_ok)))))
      = Returned (message, 0, [])
      ∧ message
        = "Runtime error occurred." +:+ nl
          +:+ "<class 'aiohttp.client_exceptions.ClientResponseError'>: "
          +:+ status_error_str (Scenario.response 500 (VDict Scenario.reply_ok))
      ∧ String.prefix "Runtime error occurred." message = true.
Proof.
  split; [reflexivity|]. split; [reflexivity|]. split; [reflexivity|].
  split; [simpl; lia|].
  exact (C5_status_400_runtime_error
           (Scenario.fstar (Returned (Scenario.response 500 (VDict Scenario.reply_ok))))
           "instance" Scenario.parameters Scenario.kwargs (VStr "let x = 1")
           [("example_name", VStr "problem_42")] (VStr "problem_42")
           (Scenario.response 500 (VDict Scenario.reply_ok))
           eq_refl eq_refl eq_refl eq_refl ltac:(simpl; lia)).
Defined.

(** C5 as stated fails: a response with status 300, which is not 2xx,
    passes [raise_for_status], and its body gives a verdict. *)
Lemma C5_status_300_verdict :
  fst (FStarExecutionTool.execute "instance" Scenario.parameters Scenario.kwargs
         (Scenario.fstar (Returned (Scenario.response 300 (VDict Scenario.reply_ok)))))
  = Returned ("Verification Success: True" +:+ nl +:+ "OK", 0, []).
Proof. reflexivity. Qed.

(** ** The request *)

(** C7: when the three entries are present, [execute] sends one request: a
    POST to the value of [FSTAR_VERIFIER_SERVER_HOST]
    (["http://localhost:8005"] when unset) followed by
    ["/check_problem_solution"], with the JSON body
    [{"solution": parameters["code"], "problem_id": tools_kwargs["example_name"]}]
    and a total timeout of 15 seconds. *)
Theorem C7_one_post_request st i p k code tk ename :
  dict_lookup "code" p = Some code →
  dict_lookup "tools_kwargs" k = Some (VDict tk) →
  dict_lookup "example_name" tk = Some ename →
  sent (world (snd (FStarExecutionTool.execute i p k st)))
  = sent (world st)
    ++ [{| req_method := "POST";
           req_url :=
             default "http://localhost:8005"
                     (environ (world st) !! "FSTAR_VERIFIER_SERVER_HOST")
             +:+ "/check_problem_solution";
           req_json := VDict [("solution", code); ("problem_id", ename)];
           req_timeout_total := 15 |}].
Proof.
  intros Hc Ht He.
  rewrite (FStar_execute_keys st i p k code tk ename Hc Ht He).
  rewrite try_silent_state by (intros e; apply silent_ret).
  by rewrite FStar_execute_try_state.
Qed.

Lemma C7_one_post_request_witness :
  dict_lookup "code" Scenario.parameters = Some (VStr "let x = 1")
  ∧ dict_lookup "tools_kwargs" Scenario.kwargs
    = Some (VDict [("example_name", VStr "problem_42")])
  ∧ dict_lookup "example_name" [("example_name", VStr "problem_42")]
    = Some (VStr "problem_42")
  ∧ sent (world (snd (FStarExecutionTool.execute "instance" Scenario.parameters
                        Scenario.kwargs
                        (Scenario.fstar (Raised Scenario.TimeoutError)))))
    = [{| req_method := "POST";
          req_url := "http://localhost:8005/check_problem_solution";
          req_json := VDict [("solution", VStr "let x = 1");
                             ("problem_id", VStr "problem_42")];
          req_timeout_total := 15 |}].
Proof.
  split; [reflexivity|]. split; [reflexivity|]. split; [reflexivity|].
  exact (C7_one_post_request (Scenario.fstar (Raised Scenario.TimeoutError))
           "instance" Scenario.parameters Scenario.kwargs (VStr "let x = 1")
           [("example_name", VStr "problem_42")] (VStr "problem_42")
           eq_refl eq_refl eq_refl).
Defined.

(** ** create *)

(** [FStarExecutionTool.create] returns the identifier it is given. *)
Lemma FStar_create_explicit st i g k :
  FStarExecutionTool.create (Some i) g k st = (Returned (VStr i), st).
Proof. reflexivity. Qed.

(** Without an identifier it returns the next one of [uuid4]. *)
Lemma FStar_create_fresh st g k :
  fst (FStarExecutionTool.create None g k st)
  = Returned (VStr (uuid4_values (world st) (uuid4_calls (world st))))
  ∧ uuid4_values (world (snd (FStarExecutionTool.create None g k st)))
    = uuid4_values (world st)
  ∧ uuid4_calls (world (snd (FStarExecutionTool.create None g k st)))
    = S (uuid4_calls (world st)).
Proof. by repeat split. Qed.

(** Two such calls in a row return two identifiers, distinct as long as
    [uuid4] does not repeat itself. *)
Lemma FStar_create_twice_distinct st g1 k1 g2 k2 :
  (∀ m n, uuid4_values (world st) m = uuid4_values (world st) n → m = n) →
  ∃ i1 i2,
    fst (FStarExecutionTool.create None g1 k1 st) = Returned (VStr i1)
    ∧ fst (FStarExecutionTool.create None g2 k2
             (snd (FStarExecutionTool.create None g1 k1 st)))
      = Returned (VStr i2)
    ∧ i1 ≠ i2.
Proof.
  intros Hinj. do 2 eexists. split; [reflexivity|]. split; [reflexivity|].
  simpl. intros H%Hinj. lia.
Qed.

(** C3 fails on [ListTool]: its [create] has no [return] statement, so it
    returns [None], whether an identifier is given or not; the same
    method of [FStarExecutionTool] ends with [return instance_id]. *)
Theorem C3_ListTool_create_returns_None st i g k :
  fst (ListTool.create i g k st) = Returned VNone.
Proof. by destruct i. Qed.

(** ** ListTool.execute *)

(** C6: whatever the identifier and the parameters, on a [ListTool] after
    any calls, [execute] returns the catalog printed by
    [json.dumps(..., indent=2)], score 0 and empty metadata, and leaves the
    state as it is; [json.loads] of that text is the catalog: one entry
    named ["tools/execute_fstar"], with the required list [["code"]] and
    one parameter ["code"] of type ["string"]. *)
Theorem C6_ListTool_execute_catalog
    float_repr parse_float config schema w calls i p k :
  let st := ListTool.run float_repr calls
              {| self := ListTool.__init__ config schema; world := w |} in
  ∃ text,
    ListTool.execute float_repr i p k st = (Returned (text, 0, []), st)
    ∧ json_loads parse_float text
      = Some
          (VList
             [VDict
                [("name", VStr "tools/execute_fstar");
                 ("description", VStr "A tool that executes the given fstar code.");
                 ("parameters",
                  VDict [("code", VDict [("type", VStr "string");
                                         ("description", VStr "F* code to execute")])]);
                 ("required", VList [VStr "code"])]]).
Proof.
  intros st.
  exists (json_dumps float_repr
            (ListTool.tool_list (ListTool.__init__ config schema)) 2).
  split.
  - unfold ListTool.execute, mbind, Py_bind, self_attr; cbn [fst snd].
    subst st. destruct (ListTool_run_stable float_repr calls
      {| self := ListTool.__init__ config schema; world := w |}) as [-> _].
    reflexivity.
  - vm_compute. reflexivity.
Qed.

(** ** release *)

(** C8: on both tools, [release] returns, whatever the identifier and the
    extra keywords, and leaves the whole state (tool object and world) as
    it is. *)
Theorem C8_release_no_op :
  (∀ (st : State ListTool.t) i k, ListTool.release i k st = (Returned tt, st))
  ∧ (∀ (st : State FStarExecutionTool.t) i k,
       FStarExecutionTool.release i k st = (Returned tt, st)).
Proof. split; reflexivity. Qed.

(** ** The instance map *)

(** C9: on both tools, [_instance_dict] is empty at construction and after
    any sequence of [create], [execute] and [release] calls; [create]
    leaves it as it is, and [execute] gives the same outcome whatever it
    holds. *)
Theorem C9_instance_dict_stays_empty float_repr config schema w calls :
  (ListTool._instance_dict (ListTool.__init__ config schema) = ∅
   ∧ ListTool._instance_dict
       (self (ListTool.run float_repr calls
                {| self := ListTool.__init__ config schema; world := w |})) = ∅
   ∧ (∀ st i g k,
        ListTool._instance_dict (self (snd (ListTool.create i g k st)))
        = ListTool._instance_dict (self st))
   ∧ (∀ st d i p k,
        fst (ListTool.execute float_repr i p k
               {| self := {| ListTool.base := ListTool.base (self st);
                             ListTool.tool_list := ListTool.tool_list (self st);
                             ListTool._instance_dict := d |};
                  world := world st |})
        = fst (ListTool.execute float_repr i p k st)))
  ∧ (FStarExecutionTool._instance_dict (FStarExecutionTool.__init__ config schema) = ∅
     ∧ FStarExecutionTool._instance_dict
         (self (FStarExecutionTool.run calls
                  {| self := FStarExecutionTool.__init__ config schema;
                     world := w |})) = ∅
     ∧ (∀ st i g k,
          FStarExecutionTool._instance_dict
            (self (snd (FStarExecutionTool.create i g k st)))
          = FStarExecutionTool._instance_dict (self st))
     ∧ (∀ st d i p k,
          fst (FStarExecutionTool.execute i p k
                 {| self := {| FStarExecutionTool.base :=
                                 FStarExecutionTool.base (self st);
                               FStarExecutionTool._instance_dict := d |};
                    world := world st |})
          = fst (FStarExecutionTool.execute i p k st))).
Proof.
  split; (split; [reflexivity|]); (split; [|split]).
  - by destruct (ListTool_run_stable float_repr calls
      {| self := ListTool.__init__ config schema; world := w |}) as [-> _].
  - intros st i g k. by destruct (ListTool_create_stable i g k st) as (-> & _).
  - reflexivity.
  - by destruct (FStar_run_stable calls
      {| self := FStarExecutionTool.__init__ config schema; world := w |})
      as [-> _].
  - intros st i g k. by destruct (FStar_create_stable i g k st) as (-> & _).
  - intros st d i p k.
    apply (FStar_execute_oblivious i p k). apply world_sim_refl.
Qed.

(** ** Independence of the instance identifier *)

(** C10: on both tools, two [execute] calls with the same parameters and
    extra keywords, in worlds with the same environment and the same
    service, give the same outcome, whatever the two instance identifiers
    and whatever calls each tool has seen before. *)
Theorem C10_execute_ignores_instance_id
    float_repr config schema w1 w2 calls1 calls2 i1 i2 p k :
  environ w1 = environ w2 →
  (∀ r, server w1 r = server w2 r) →
  fst (ListTool.execute float_repr i1 p k
         (ListTool.run float_repr calls1
            {| self := ListTool.__init__ config schema; world := w1 |}))
  = fst (ListTool.execute float_repr i2 p k
           (ListTool.run float_repr calls2
              {| self := ListTool.__init__ config schema; world := w2 |}))
  ∧ fst (FStarExecutionTool.execute i1 p k
           (FStarExecutionTool.run calls1
              {| self := FStarExecutionTool.__init__ config schema; world := w1 |}))
    = fst (FStarExecutionTool.execute i2 p k
             (FStarExecutionTool.run calls2
                {| self := FStarExecutionTool.__init__ config schema;
                   world := w2 |})).
Proof.
  intros He Hs. split.
  - unfold ListTool.execute, mbind, Py_bind, self_attr; cbn [fst snd].
    destruct (ListTool_run_stable float_repr calls1
      {| self := ListTool.__init__ config schema; world := w1 |}) as [-> _].
    destruct (ListTool_run_stable float_repr calls2
      {| self := ListTool.__init__ config schema; world := w2 |}) as [-> _].
    reflexivity.
  - change (FStarExecutionTool.execute i2 p k)
      with (FStarExecutionTool.execute i1 p k).
    apply (FStar_execute_oblivious i1 p k).
    destruct (FStar_run_stable calls1
      {| self := FStarExecutionTool.__init__ config schema; world := w1 |})
      as [_ H1].
    destruct (FStar_run_stable calls2
      {| self := FStarExecutionTool.__init__ config schema; world := w2 |})
      as [_ H2].
    eapply world_sim_trans; [exact H1|].
    eapply world_sim_trans; [|apply world_sim_sym; exact H2].
    by split.
Qed.

Lemma C10_execute_ignores_instance_id_witness :
  environ (Scenario.world_with (Returned (Scenario.response 200 (VDict Scenario.reply_ok))))
  = environ (Scenario.world_later (Returned (Scenario.response 200 (VDict Scenario.reply_ok))))
  ∧ (∀ r,
       server (Scenario.world_with (Returned (Scenario.response 200 (VDict Scenario.reply_ok)))) r
       = server (Scenario.world_later (Returned (Scenario.response 200 (VDict Scenario.reply_ok)))) r)
  ∧ fst (FStarExecutionTool.execute "never created" Scenario.parameters Scenario.kwargs
           (FStarExecutionTool.run []
              {| self := FStarExecutionTool.__init__ [] Scenario.schema;
                 world := Scenario.world_with
                            (Returned (Scenario.response 200 (VDict Scenario.reply_ok))) |}))
    = fst (FStarExecutionTool.execute "released" Scenario.parameters Scenario.kwargs
             (FStarExecutionTool.run
                [Create (Some "released") None []; Release "released" []]
                {| self := FStarExecutionTool.__init__ [] Scenario.schema;
                   world := Scenario.world_later
                              (Returned (Scenario.response 200 (VDict Scenario.reply_ok))) |})).
Proof.
  split; [reflexivity|]. split; [intros r; reflexivity|].
  exact (proj2 (C10_execute_ignores_instance_id (λ _, "1.0") [] Scenario.schema
                  (Scenario.world_with (Returned (Scenario.response 200 (VDict Scenario.reply_ok))))
                  (Scenario.world_later (Returned (Scenario.response 200 (VDict Scenario.reply_ok))))
                  [] [Create (Some "released") None []; Release "released" []]
                  "never created" "released" Scenario.parameters Scenario.kwargs
                  eq_refl (λ _, eq_refl))).
Defined.

(** * Further properties *)

(** ** Lookups ahead of the round trip *)

Lemma py_getitem_found {T} d k x (st : State T) :
  dict_lookup k d = Some x → py_getitem (VDict d) k st = (Returned x, st).
Proof. intros H. unfold py_getitem. by rewrite H. Qed.

Lemma py_getitem_missing {T} d k (st : State T) :
  dict_lookup k d = None → py_getitem (VDict d) k st = (Raised (KeyError k), st).
Proof. intros H. unfold py_getitem. by rewrite H. Qed.

(** X1: without a ["code"] entry in [parameters], [execute] raises
    [KeyError('code')] to its caller, whatever the extra keywords, and
    leaves the state as it is: no request is sent. *)
Theorem X1_execute_missing_code st i p k :
  dict_lookup "code" p = None →
  FStarExecutionTool.execute i p k st = (Raised (KeyError "code"), st).
Proof.
  intros Hc.
  unfold FStarExecutionTool.execute, mbind, Py_bind, os_environ_get.
  cbn [fst snd]. by rewrite (py_getitem_missing p "code" st Hc).
Qed.

Lemma X1_execute_missing_code_witness :
  dict_lookup "code" [("source", VStr "let x = 1")] = None
  ∧ FStarExecutionTool.execute "instance" [("source", VStr "let x = 1")]
      Scenario.kwargs (Scenario.fstar (Raised Scenario.TimeoutError))
    = (Raised (KeyError "code"), Scenario.fstar (Raised Scenario.TimeoutError)).
Proof.
  split; [reflexivity|].
  exact (X1_execute_missing_code (Scenario.fstar (Raised Scenario.TimeoutError))
           "instance" [("source", VStr "let x = 1")] Scenario.kwargs eq_refl).
Defined.

(** X2: with a ["code"] entry, [execute] raises to its caller and sends
    no request when the problem identifier cannot be read: [KeyError] for
    a missing [tools_kwargs] or a [tools_kwargs] mapping without
    ["example_name"], [TypeError] for a [tools_kwargs] that is no
    mapping. *)
Theorem X2_execute_missing_problem_id st i p k code :
  dict_lookup "code" p = Some code →
  (dict_lookup "tools_kwargs" k = None →
   FStarExecutionTool.execute i p k st = (Raised (KeyError "tools_kwargs"), st))
  ∧ (∀ tk, dict_lookup "tools_kwargs" k = Some (VDict tk) →
           dict_lookup "example_name" tk = None →
           FStarExecutionTool.execute i p k st
           = (Raised (KeyError "example_name"), st))
  ∧ (∀ v, dict_lookup "tools_kwargs" k = Some v →
          (∀ tk, v ≠ VDict tk) →
          ∃ msg, FStarExecutionTool.execute i p k st = (Raised (TypeError msg), st)).
Proof.
  intros Hc.
  unfold FStarExecutionTool.execute, mbind, Py_bind, os_environ_get.
  cbn [fst snd]. rewrite (py_getitem_found p "code" code st Hc).
  split; [|split].
  - intros Ht. by rewrite (py_getitem_missing k "tools_kwargs" st Ht).
  - intros tk Ht He. rewrite (py_getitem_found k "tools_kwargs" _ st Ht).
    by rewrite (py_getitem_missing tk "example_name" st He).
  - intros v Ht Hv. rewrite (py_getitem_found k "tools_kwargs" _ st Ht).
    destruct v; try (eexists; reflexivity). by destruct (Hv d).
Qed.

Lemma X2_execute_missing_problem_id_witness :
  dict_lookup "code" Scenario.parameters = Some (VStr "let x = 1")
  ∧ dict_lookup "tools_kwargs" [("tools_kwargs", VDict [])] = Some (VDict [])
  ∧ dict_lookup "example_name" [] = None
  ∧ FStarExecutionTool.execute "instance" Scenario.parameters
      [("tools_kwargs", VDict [])] (Scenario.fstar (Raised Scenario.TimeoutError))
    = (Raised (KeyError "example_name"),
       Scenario.fstar (Raised Scenario.TimeoutError)).
Proof.
  split; [reflexivity|]. split; [reflexivity|]. split; [reflexivity|].
  exact (proj1 (proj2 (X2_execute_missing_problem_id
                         (Scenario.fstar (Raised Scenario.TimeoutError)) "instance"
                         Scenario.parameters [("tools_kwargs", VDict [])]
                         (VStr "let x = 1") eq_refl))
               [] eq_refl eq_refl).
Defined.

(** ** Requests *)

(** The round trip when reading the body raises *)
Lemma FStar_execute_try_body_raises url payload st response e :
  server (world st) (request_of url payload) = Returned response →
  status response < 400 →
  json response = Raised e →
  FStarExecutionTool.execute_try url payload st
  = (Raised e, posted (request_of url payload) st).
Proof.
  intros Hs Hc Hj. unfold FStarExecutionTool.execute_try, mbind, Py_bind, session_post.
  fold (request_of url payload). rewrite Hs. unfold raise_for_status.
  destruct (Z.leb_spec 400 (status response)) as [|_]; [lia|].
  unfold response_json, of_outcome. by rewrite Hj.
Qed.

(** The round trip on a status below 400 with a body that is no object *)
Lemma FStar_execute_try_no_object url payload st response v :
  server (world st) (request_of url payload) = Returned response →
  status response < 400 →
  json response = Returned v →
  (∀ d, v ≠ VDict d) →
  FStarExecutionTool.execute_try url payload st
  = (Raised (AttributeError (squote +:+ type_name v +:+ squote
                             +:+ " object has no attribute "
                             +:+ squote +:+ "get" +:+ squote)),
     posted (request_of url payload) st).
Proof.
  intros Hs Hc Hj Hv. unfold FStarExecutionTool.execute_try, mbind, Py_bind, session_post.
  fold (request_of url payload). rewrite Hs. unfold raise_for_status.
  destruct (Z.leb_spec 400 (status response)) as [|_]; [lia|].
  unfold response_json, of_outcome. rewrite Hj.
  destruct v; try reflexivity. by destruct (Hv d).
Qed.

(** The three lookups of [execute]: all found, or an exception deriving
    from [Exception] raised on the spot. *)
Lemma FStar_execute_lookups st i p k :
  (∃ code tk ename,
     dict_lookup "code" p = Some code
     ∧ dict_lookup "tools_kwargs" k = Some (VDict tk)
     ∧ dict_lookup "example_name" tk = Some ename)
  ∨ (∃ e, FStarExecutionTool.execute i p k st = (Raised e, st)
          ∧ exc_is_Exception e = true).
Proof.
  unfold FStarExecutionTool.execute, mbind, Py_bind, os_environ_get.
  cbn [fst snd].
  destruct (dict_lookup "code" p) as [code|] eqn:Hc.
  2: { right. rewrite (py_getitem_missing p "code" st Hc). by eexists. }
  rewrite (py_getitem_found p "code" code st Hc).
  destruct (dict_lookup "tools_kwargs" k) as [v|] eqn:Ht.
  2: { right. rewrite (py_getitem_missing k "tools_kwargs" st Ht). by eexists. }
  rewrite (py_getitem_found k "tools_kwargs" v st Ht).
  destruct v; try (right; by eexists).
  destruct (dict_lookup "example_name" d) as [ename|] eqn:He.
  2: { right. rewrite (py_getitem_missing d "example_name" st He). by eexists. }
  left. by exists code, d, ename.
Qed.

(** X3: a call of [execute] sends one request or none.  It sends none,
    and leaves the state as it is, exactly when it raises an exception
    deriving from [Exception] (a failed lookup ahead of the [try]); every
    triple it returns, verdict or runtime-error message, stands for one
    request sent. *)
Theorem X3_execute_one_request_or_none st i p k :
  (∀ e, fst (FStarExecutionTool.execute i p k st) = Raised e →
        exc_is_Exception e = true →
        snd (FStarExecutionTool.execute i p k st) = st)
  ∧ (∀ r, fst (FStarExecutionTool.execute i p k st) = Returned r →
          ∃ request,
            sent (world (snd (FStarExecutionTool.execute i p k st)))
            = sent (world st) ++ [request])
  ∧ (∃ requests,
       sent (world (snd (FStarExecutionTool.execute i p k st)))
       = sent (world st) ++ requests
       ∧ (length requests ≤ 1)%nat).
Proof.
  destruct (FStar_execute_lookups st i p k)
    as [(code & tk & ename & Hc & Ht & He)|(e0 & Hx & He0)].
  - assert (snd (FStarExecutionTool.execute i p k st)
            = posted (request_of (verifier_url (world st))
                        (VDict [("solution", code); ("problem_id", ename)])) st)
      as Hst.
    { rewrite (FStar_execute_keys st i p k code tk ename Hc Ht He).
      rewrite try_silent_state by (intros e; apply silent_ret).
      apply FStar_execute_try_state. }
    split; [|split].
    + intros e Hr Hex. exfalso. revert Hr.
      rewrite (FStar_execute_keys st i p k code tk ename Hc Ht He).
      unfold try_except_Exception.
      destruct (FStarExecutionTool.execute_try _ _ st) as [[r|e1] st1]; [done|].
      destruct (exc_is_Exception e1) eqn:E; [done|].
      intros [= ->]. congruence.
    + intros r _. rewrite Hst. by eexists.
    + rewrite Hst. eexists. split; [reflexivity|]. simpl. lia.
  - rewrite Hx. split; [|split].
    + done.
    + intros r [=].
    + exists []. simpl. split; [by rewrite app_nil_r | lia].
Qed.

(** X4: with the three entries present, an exception of the transport
    that does not derive from [Exception] (a cancellation) is not turned
    into a message: [execute] raises it to its caller, the request having
    been sent. *)
Theorem X4_execute_lets_cancellation_through st i p k code tk ename e :
  dict_lookup "code" p = Some code →
  dict_lookup "tools_kwargs" k = Some (VDict tk) →
  dict_lookup "example_name" tk = Some ename →
  server (world st)
    (request_of (verifier_url (world st))
                (VDict [("solution", code); ("problem_id", ename)]))
  = Raised e →
  exc_is_Exception e = false →
  FStarExecutionTool.execute i p k st
  = (Raised e,
     posted (request_of (verifier_url (world st))
                        (VDict [("solution", code); ("problem_id", ename)])) st).
Proof.
  intros Hc Ht He Hs Hx.
  rewrite (FStar_execute_keys st i p k code tk ename Hc Ht He).
  unfold try_except_Exception.
  by rewrite (FStar_execute_try_transport _ _ st e Hs), Hx.
Qed.

Lemma X4_execute_lets_cancellation_through_witness :
  dict_lookup "code" Scenario.parameters = Some (VStr "let x = 1")
  ∧ dict_lookup "tools_kwargs" Scenario.kwargs
    = Some (VDict [("example_name", VStr "problem_42")])
  ∧ dict_lookup "example_name" [("example_name", VStr "problem_42")]
    = Some (VStr "problem_42")
  ∧ exc_is_Exception Scenario.CancelledError = false
  ∧ FStarExecutionTool.execute "instance" Scenario.parameters Scenario.kwargs
      (Scenario.fstar (Raised Scenario.CancelledError))
    = (Raised Scenario.CancelledError,
       posted (request_of "http://localhost:8005/check_problem_solution"
                          Scenario.payload)
              (Scenario.fstar (Raised Scenario.CancelledError))).
Proof.
  split; [reflexivity|]. split; [reflexivity|]. split; [reflexivity|].
  split; [reflexivity|].
  exact (X4_execute_lets_cancellation_through
           (Scenario.fstar (Raised Scenario.CancelledError)) "instance"
           Scenario.parameters Scenario.kwargs (VStr "let x = 1")
           [("example_name", VStr "problem_42")] (VStr "problem_42")
           Scenario.CancelledError eq_refl eq_refl eq_refl eq_refl eq_refl).
Defined.

(** ** Failures of the round trip *)

(** X5: with the three entries present, a failure of the transport that
    derives from [Exception] (a timeout, a refused connection) gives the
    triple [("Runtime error occurred.\n<class>: <detail>", 0, {})] of that
    exception. *)
Theorem X5_execute_transport_failure st i p k code tk ename e :
  dict_lookup "code" p = Some code →
  dict_lookup "tools_kwargs" k = Some (VDict tk) →
  dict_lookup "example_name" tk = Some ename →
  server (world st)
    (request_of (verifier_url (world st))
                (VDict [("solution", code); ("problem_id", ename)]))
  = Raised e →
  exc_is_Exception e = true →
  fst (FStarExecutionTool.execute i p k st)
  = Returned ("Runtime error occurred." +:+ nl +:+ "<class '" +:+ exc_class e
              +:+ "'>: " +:+ exc_str e, 0, []).
Proof.
  intros Hc Ht He Hs Hx.
  rewrite (FStar_execute_keys st i p k code tk ename Hc Ht He).
  unfold try_except_Exception.
  rewrite (FStar_execute_try_transport _ _ st e Hs), Hx. cbn [fst mret Py_ret].
  unfold FStarExecutionTool.execute_except, class_str.
  do 2 f_equal. f_equal. f_equal.
  change ("<class " +:+ squote +:+ exc_class e +:+ squote +:+ ">")
    with ("<class '" +:+ (exc_class e +:+ (squote +:+ ">"))).
  change ("<class '" +:+ exc_class e +:+ "'>: " +:+ exc_str e)
    with ("<class '" +:+ (exc_class e +:+ ((squote +:+ ">") +:+ (": " +:+ exc_str e)))).
  by rewrite !string_app_assoc.
Qed.

Lemma X5_execute_transport_failure_witness :
  dict_lookup "code" Scenario.parameters = Some (VStr "let x = 1")
  ∧ dict_lookup "tools_kwargs" Scenario.kwargs
    = Some (VDict [("example_name", VStr "problem_42")])
  ∧ dict_lookup "example_name" [("example_name", VStr "problem_42")]
    = Some (VStr "problem_42")
  ∧ exc_is_Exception Scenario.TimeoutError = true
  ∧ fst (FStarExecutionTool.execute "instance" Scenario.parameters Scenario.kwargs
           (Scenario.fstar (Raised Scenario.TimeoutError)))
    = Returned ("Runtime error occurred." +:+ nl +:+ "<class 'TimeoutError'>: ",
                0, []).
Proof.
  split; [reflexivity|]. split; [reflexivity|]. split; [reflexivity|].
  split; [reflexivity|].
  exact (X5_execute_transport_failure
           (Scenario.fstar (Raised Scenario.TimeoutError)) "instance"
           Scenario.parameters Scenario.kwargs (VStr "let x = 1")
           [("example_name", VStr "problem_42")] (VStr "problem_42")
           Scenario.TimeoutError eq_refl eq_refl eq_refl eq_refl eq_refl).
Defined.

(** X6: with the three entries present and a status below 400, a body
    that [response.json()] cannot read (the exception deriving from
    [Exception]: malformed JSON, wrong content type) gives the
    runtime-error triple of that exception. *)
Theorem X6_execute_unreadable_body st i p k code tk ename response e :
  dict_lookup "code" p = Some code →
  dict_lookup "tools_kwargs" k = Some (VDict tk) →
  dict_lookup "example_name" tk = Some ename →
  server (world st)
    (request_of (verifier_url (world st))
                (VDict [("solution", code); ("problem_id", ename)]))
  = Returned response →
  status response < 400 →
  json response = Raised e →
  exc_is_Exception e = true →
  fst (FStarExecutionTool.execute i p k st)
  = Returned ("Runtime error occurred." +:+ nl +:+ class_str e +:+ ": "
              +:+ exc_str e, 0, []).
Proof.
  intros Hc Ht He Hs Hst Hj Hx.
  rewrite (FStar_execute_keys st i p k code tk ename Hc Ht He).
  unfold try_except_Exception.
  by rewrite (FStar_execute_try_body_raises _ _ st response e Hs Hst Hj), Hx.
Qed.

Lemma X6_execute_unreadable_body_witness :
  dict_lookup "code" Scenario.parameters = Some (VStr "let x = 1")
  ∧ dict_lookup "tools_kwargs" Scenario.kwargs
    = Some (VDict [("example_name", VStr "problem_42")])
  ∧ dict_lookup "example_name" [("example_name", VStr "problem_42")]
    = Some (VStr "problem_42")
  ∧ status (Answers.unreadable 200) < 400
  ∧ exc_is_Exception Answers.JSONDecodeError = true
  ∧ fst (FStarExecutionTool.execute "instance" Scenario.parameters Scenario.kwargs
           (Scenario.fstar (Returned (Answers.unreadable 200))))
    = Returned ("Runtime error occurred." +:+ nl
                +:+ "<class 'json.decoder.JSONDecodeError'>: "
                +:+ "Expecting value: line 1 column 1 (char 0)", 0, []).
Proof.
  split; [reflexivity|]. split; [reflexivity|]. split; [reflexivity|].
  split; [reflexivity|]. split; [reflexivity|].
  exact (X6_execute_unreadable_body
           (Scenario.fstar (Returned (Answers.unreadable 200))) "instance"
           Scenario.parameters Scenario.kwargs (VStr "let x = 1")
           [("example_name", VStr "problem_42")] (VStr "problem_42")
           (Answers.unreadable 200) Answers.JSONDecodeError
           eq_refl eq_refl eq_refl eq_refl eq_refl eq_refl eq_refl).
Defined.

(** X7: the status counts only through the threshold of 400: on the same
    call, two answers with statuses below 400 (2xx or not) and the same
    outcome of [response.json()] give the same outcome of [execute]. *)
Theorem X7_execute_status_below_400 st1 st2 i p k code tk ename response1 response2 :
  dict_lookup "code" p = Some code →
  dict_lookup "tools_kwargs" k = Some (VDict tk) →
  dict_lookup "example_name" tk = Some ename →
  server (world st1)
    (request_of (verifier_url (world st1))
                (VDict [("solution", code); ("problem_id", ename)]))
  = Returned response1 →
  server (world st2)
    (request_of (verifier_url (world st2))
                (VDict [("solution", code); ("problem_id", ename)]))
  = Returned response2 →
  status response1 < 400 →
  status response2 < 400 →
  json response1 = json response2 →
  fst (FStarExecutionTool.execute i p k st1)
  = fst (FStarExecutionTool.execute i p k st2).
Proof.
  intros Hc Ht He Hs1 Hs2 Hst1 Hst2 Hj.
  rewrite (FStar_execute_keys st1 i p k code tk ename Hc Ht He).
  rewrite (FStar_execute_keys st2 i p k code tk ename Hc Ht He).
  unfold try_except_Exception.
  destruct (json response1) as [v|e] eqn:Hj1; symmetry in Hj.
  - assert ((∃ d, v = VDict d) ∨ ∀ d, v ≠ VDict d) as [[d ->]|Hv]
      by (destruct v; first [left; by eexists | right; intros d'; discriminate]).
    + rewrite (FStar_execute_try_object _ _ st1 response1 d Hs1 Hst1 Hj1).
      rewrite (FStar_execute_try_object _ _ st2 response2 d Hs2 Hst2 Hj).
      by destruct (default (VStr EmptyString) (dict_lookup "messages" d)).
    + rewrite (FStar_execute_try_no_object _ _ st1 response1 v Hs1 Hst1 Hj1 Hv).
      by rewrite (FStar_execute_try_no_object _ _ st2 response2 v Hs2 Hst2 Hj Hv).
  - rewrite (FStar_execute_try_body_raises _ _ st1 response1 e Hs1 Hst1 Hj1).
    rewrite (FStar_execute_try_body_raises _ _ st2 response2 e Hs2 Hst2 Hj).
    by destruct (exc_is_Exception e).
Qed.

Lemma X7_execute_status_below_400_witness :
  dict_lookup "code" Scenario.parameters = Some (VStr "let x = 1")
  ∧ dict_lookup "tools_kwargs" Scenario.kwargs
    = Some (VDict [("example_name", VStr "problem_42")])
  ∧ dict_lookup "example_name" [("example_name", VStr "problem_42")]
    = Some (VStr "problem_42")
  ∧ status (Scenario.response 200 (VDict Scenario.reply_ok)) < 400
  ∧ status (Scenario.response 304 (VDict Scenario.reply_ok)) < 400
  ∧ fst (FStarExecutionTool.execute "instance" Scenario.parameters Scenario.kwargs
           (Scenario.fstar (Returned (Scenario.response 200 (VDict Scenario.reply_ok)))))
    = fst (FStarExecutionTool.execute "instance" Scenario.parameters Scenario.kwargs
             (Scenario.fstar (Returned (Scenario.response 304 (VDict Scenario.reply_ok))))).
Proof.
  split; [reflexivity|]. split; [reflexivity|]. split; [reflexivity|].
  split; [reflexivity|]. split; [reflexivity|].
  exact (X7_execute_status_below_400
           (Scenario.fstar (Returned (Scenario.response 200 (VDict Scenario.reply_ok))))
           (Scenario.fstar (Returned (Scenario.response 304 (VDict Scenario.reply_ok))))
           "instance" Scenario.parameters Scenario.kwargs (VStr "let x = 1")
           [("example_name", VStr "problem_42")] (VStr "problem_42")
           (Scenario.response 200 (VDict Scenario.reply_ok))
           (Scenario.response 304 (VDict Scenario.reply_ok))
           eq_refl eq_refl eq_refl eq_refl eq_refl eq_refl eq_refl eq_refl).
Defined.

(** ** Bodies *)

(** X8: with the three entries present and a status below 400, a body
    that parses as JSON but is no object (an array, a string, a number,
    [true], [false], [null]) gives the runtime-error triple of the
    [AttributeError] of [resp_json.get], which names the type of the
    body. *)
Theorem X8_execute_body_no_object st i p k code tk ename response v :
  dict_lookup "code" p = Some code →
  dict_lookup "tools_kwargs" k = Some (VDict tk) →
  dict_lookup "example_name" tk = Some ename →
  server (world st)
    (request_of (verifier_url (world st))
                (VDict [("solution", code); ("problem_id", ename)]))
  = Returned response →
  status response < 400 →
  json response = Returned v →
  (∀ d, v ≠ VDict d) →
  fst (FStarExecutionTool.execute i p k st)
  = Returned ("Runtime error occurred." +:+ nl +:+ "<class 'AttributeError'>: '"
              +:+ type_name v +:+ "' object has no attribute 'get'", 0, []).
Proof.
  intros Hc Ht He Hs Hst Hj Hv.
  rewrite (FStar_execute_keys st i p k code tk ename Hc Ht He).
  unfold try_except_Exception.
  rewrite (FStar_execute_try_no_object _ _ st response v Hs Hst Hj Hv).
  cbn [fst mret Py_ret AttributeError exc_is_Exception].
  unfold FStarExecutionTool.execute_except.
  by destruct v.
Qed.

Lemma X8_execute_body_no_object_witness :
  dict_lookup "code" Scenario.parameters = Some (VStr "let x = 1")
  ∧ dict_lookup "tools_kwargs" Scenario.kwargs
    = Some (VDict [("example_name", VStr "problem_42")])
  ∧ dict_lookup "example_name" [("example_name", VStr "problem_42")]
    = Some (VStr "problem_42")
  ∧ status (Scenario.response 200 VNone) < 400
  ∧ (∀ d, VNone ≠ VDict d)
  ∧ fst (FStarExecutionTool.execute "instance" Scenario.parameters Scenario.kwargs
           (Scenario.fstar (Returned (Scenario.response 200 VNone))))
    = Returned ("Runtime error occurred." +:+ nl
                +:+ "<class 'AttributeError'>: 'NoneType' object has no attribute 'get'",
                0, []).
Proof.
  split; [reflexivity|]. split; [reflexivity|]. split; [reflexivity|].
  split; [reflexivity|]. split; [intros d; discriminate|].
  exact (X8_execute_body_no_object
           (Scenario.fstar (Returned (Scenario.response 200 VNone))) "instance"
           Scenario.parameters Scenario.kwargs (VStr "let x = 1")
           [("example_name", VStr "problem_42")] (VStr "problem_42")
           (Scenario.response 200 VNone) VNone
           eq_refl eq_refl eq_refl eq_refl eq_refl eq_refl
           (λ d, ltac:(discriminate))).
Defined.

(** X9: with the three entries present, a status below 400 and an object
    as body, a [messages] entry that is no string ([null], a number, an
    array, ...) gives the runtime-error triple of the [TypeError] of the
    concatenation, which names the type of the entry; no verdict is
    returned, whatever [return_code] and [score]. *)
Theorem X9_execute_messages_no_string st i p k code tk ename response d v :
  dict_lookup "code" p = Some code →
  dict_lookup "tools_kwargs" k = Some (VDict tk) →
  dict_lookup "example_name" tk = Some ename →
  server (world st)
    (request_of (verifier_url (world st))
                (VDict [("solution", code); ("problem_id", ename)]))
  = Returned response →
  status response < 400 →
  json response = Returned (VDict d) →
  dict_lookup "messages" d = Some v →
  (∀ m, v ≠ VStr m) →
  fst (FStarExecutionTool.execute i p k st)
  = Returned ("Runtime error occurred." +:+ nl
              +:+ "<class 'TypeError'>: can only concatenate str (not "
              +:+ dquote +:+ type_name v +:+ dquote +:+ ") to str", 0, []).
Proof.
  intros Hc Ht He Hs Hst Hj Hm Hv.
  rewrite (FStar_execute_keys st i p k code tk ename Hc Ht He).
  unfold try_except_Exception.
  rewrite (FStar_execute_try_object _ _ st response d Hs Hst Hj), Hm.
  destruct v; try reflexivity. by destruct (Hv s).
Qed.

Lemma X9_execute_messages_no_string_witness :
  dict_lookup "code" Scenario.parameters = Some (VStr "let x = 1")
  ∧ dict_lookup "tools_kwargs" Scenario.kwargs
    = Some (VDict [("example_name", VStr "problem_42")])
  ∧ dict_lookup "example_name" [("example_name", VStr "problem_42")]
    = Some (VStr "problem_42")
  ∧ status (Scenario.response 200 (VDict [("messages", VList [VStr "OK"])])) < 400
  ∧ dict_lookup "messages" [("messages", VList [VStr "OK"])] = Some (VList [VStr "OK"])
  ∧ (∀ m, VList [VStr "OK"] ≠ VStr m)
  ∧ fst (FStarExecutionTool.execute "instance" Scenario.parameters Scenario.kwargs
           (Scenario.fstar
              (Returned (Scenario.response 200 (VDict [("messages", VList [VStr "OK"])])))))
    = Returned ("Runtime error occurred." +:+ nl
                +:+ "<class 'TypeError'>: can only concatenate str (not "
                +:+ dquote +:+ "list" +:+ dquote +:+ ") to str", 0, []).
Proof.
  split; [reflexivity|]. split; [reflexivity|]. split; [reflexivity|].
  split; [reflexivity|]. split; [reflexivity|]. split; [intros m; discriminate|].
  exact (X9_execute_messages_no_string
           (Scenario.fstar
              (Returned (Scenario.response 200 (VDict [("messages", VList [VStr "OK"])]))))
           "instance" Scenario.parameters Scenario.kwargs (VStr "let x = 1")
           [("example_name", VStr "problem_42")] (VStr "problem_42")
           (Scenario.response 200 (VDict [("messages", VList [VStr "OK"])]))
           [("messages", VList [VStr "OK"])] (VList [VStr "OK"])
           eq_refl eq_refl eq_refl eq_refl eq_refl eq_refl eq_refl
           (λ m, ltac:(discriminate))).
Defined.

(** ** The verdict, read backwards *)

(** With the three entries present, the outcome of [execute] is that of
    the round trip, an exception deriving from [Exception] turned into its
    runtime-error triple. *)
Lemma FStar_execute_outcome st i p k code tk ename :
  dict_lookup "code" p = Some code →
  dict_lookup "tools_kwargs" k = Some (VDict tk) →
  dict_lookup "example_name" tk = Some ename →
  fst (FStarExecutionTool.execute i p k st)
  = match fst (FStarExecutionTool.execute_try (verifier_url (world st))
                 (VDict [("solution", code); ("problem_id", ename)]) st) with
    | Returned r => Returned r
    | Raised e =>
        if exc_is_Exception e
        then Returned (FStarExecutionTool.execute_except e)
        else Raised e
    end.
Proof.
  intros Hc Ht He. rewrite (FStar_execute_keys st i p k code tk ename Hc Ht He).
  unfold try_except_Exception.
  destruct (FStarExecutionTool.execute_try _ _ st) as [[r|e] st'];
    cbn [fst]; [done|].
  destruct (exc_is_Exception e); reflexivity.
Qed.

(** Closes a case in which [execute] raises or returns a runtime-error
    triple, against a message known to begin as [Hp] says. *)
Ltac no_verdict Hp :=
  cbn [fst];
  try match goal with
      | |- context [exc_is_Exception ?e] => destruct (exc_is_Exception e)
      end;
  first [ discriminate
        | unfold FStarExecutionTool.execute_except;
          intros [= <- _ _]; discriminate Hp ].

(** X10: a message that begins with ["Verification Success: True"] is
    only ever returned when the three entries were present, the service
    answered with a status below 400 and a JSON object, and that object
    holds a [return_code] equal to 0 and a [score] equal to 1.0; a missing
    field, an error status or a failure never reads as a success. *)
Theorem X10_true_verdict_sound st i p k message score metadata :
  fst (FStarExecutionTool.execute i p k st) = Returned (message, score, metadata) →
  String.prefix "Verification Success: True" message = true →
  ∃ code tk ename response d return_code score_value,
    dict_lookup "code" p = Some code
    ∧ dict_lookup "tools_kwargs" k = Some (VDict tk)
    ∧ dict_lookup "example_name" tk = Some ename
    ∧ server (world st)
        (request_of (verifier_url (world st))
                    (VDict [("solution", code); ("problem_id", ename)]))
      = Returned response
    ∧ status response < 400
    ∧ json response = Returned (VDict d)
    ∧ dict_lookup "return_code" d = Some return_code
    ∧ py_eq_int return_code 0 = true
    ∧ dict_lookup "score" d = Some score_value
    ∧ py_eq_float score_value float_one = true.
Proof.
  intros Hr Hp.
  destruct (FStar_execute_lookups st i p k)
    as [(code & tk & ename & Hc & Ht & He)|(e0 & Hx & _)];
    [|by rewrite Hx in Hr].
  exists code, tk, ename.
  revert Hr. rewrite (FStar_execute_outcome st i p k code tk ename Hc Ht He).
  set (url := verifier_url (world st)).
  set (payload := VDict [("solution", code); ("problem_id", ename)]).
  destruct (server (world st) (request_of url payload)) as [response|e] eqn:Hs.
  2: { rewrite (FStar_execute_try_transport _ _ st e Hs). no_verdict Hp. }
  destruct (Z.lt_ge_cases (status response) 400) as [Hst|Hst].
  2: { rewrite (FStar_execute_try_status _ _ st response Hs Hst). no_verdict Hp. }
  destruct (json response) as [v|e] eqn:Hj.
  2: { rewrite (FStar_execute_try_body_raises _ _ st response e Hs Hst Hj).
       no_verdict Hp. }
  assert ((∃ d, v = VDict d) ∨ ∀ d, v ≠ VDict d) as [[d ->]|Hv]
    by (destruct v; first [left; by eexists | right; intros d'; discriminate]).
  2: { rewrite (FStar_execute_try_no_object _ _ st response v Hs Hst Hj Hv).
       no_verdict Hp. }
  rewrite (FStar_execute_try_object _ _ st response d Hs Hst Hj).
  destruct (default (VStr EmptyString) (dict_lookup "messages" d)) as [| | | |m| |];
    try no_verdict Hp.
  cbn [fst]. intros [= <- _ _].
  destruct (dict_lookup "return_code" d) as [rc|] eqn:Hrc; [|done].
  destruct (py_eq_int (default (VInt (-2)) (Some rc)) 0) eqn:Hrc0; [|done].
  destruct (dict_lookup "score" d) as [sc|] eqn:Hsc; [|done].
  destruct (py_eq_float (default VNone (Some sc)) float_one) eqn:Hsc1; [|done].
  by exists response, d, rc, sc.
Qed.

Lemma X10_true_verdict_sound_witness :
  fst (FStarExecutionTool.execute "instance" Scenario.parameters Scenario.kwargs
         (Scenario.fstar (Returned (Scenario.response 200 (VDict Scenario.reply_ok)))))
  = Returned ("Verification Success: True" +:+ nl +:+ "OK", 0, [])
  ∧ String.prefix "Verification Success: True"
      ("Verification Success: True" +:+ nl +:+ "OK") = true
  ∧ ∃ code tk ename response d return_code score_value,
      dict_lookup "code" Scenario.parameters = Some code
      ∧ dict_lookup "tools_kwargs" Scenario.kwargs = Some (VDict tk)
      ∧ dict_lookup "example_name" tk = Some ename
      ∧ server (Scenario.world_with
                  (Returned (Scenario.response 200 (VDict Scenario.reply_ok))))
          (request_of (verifier_url
                         (Scenario.world_with
                            (Returned (Scenario.response 200 (VDict Scenario.reply_ok)))))
                      (VDict [("solution", code); ("problem_id", ename)]))
        = Returned response
      ∧ status response < 400
      ∧ json response = Returned (VDict d)
      ∧ dict_lookup "return_code" d = Some return_code
      ∧ py_eq_int return_code 0 = true
      ∧ dict_lookup "score" d = Some score_value
      ∧ py_eq_float score_value float_one = true.
Proof.
  split; [reflexivity|]. split; [reflexivity|].
  exact (X10_true_verdict_sound
           (Scenario.fstar (Returned (Scenario.response 200 (VDict Scenario.reply_ok))))
           "instance" Scenario.parameters Scenario.kwargs
           ("Verification Success: True" +:+ nl +:+ "OK") 0 [] eq_refl eq_refl).
Defined.

(** ** The tool objects *)

(** X11: no sequence of [create], [execute] and [release] calls changes
    a tool object: [get_openai_tool_schema] returns after the calls what
    it returned before them, on both tools, and the catalog of [ListTool]
    stays what it was. *)
Theorem X11_tool_objects_unchanged float_repr calls :
  (∀ st : State ListTool.t,
     self (ListTool.run float_repr calls st) = self st
     ∧ ListTool.get_openai_tool_schema (self (ListTool.run float_repr calls st))
       = ListTool.get_openai_tool_schema (self st)
     ∧ ListTool.tool_list (self (ListTool.run float_repr calls st))
       = ListTool.tool_list (self st))
  ∧ (∀ st : State FStarExecutionTool.t,
       self (FStarExecutionTool.run calls st) = self st
       ∧ FStarExecutionTool.get_openai_tool_schema
           (self (FStarExecutionTool.run calls st))
         = FStarExecutionTool.get_openai_tool_schema (self st)).
Proof.
  split; intros st.
  - destruct (ListTool_run_stable float_repr calls st) as [-> _]. done.
  - destruct (FStar_run_stable calls st) as [-> _]. done.
Qed.

(** ** Identifiers *)

Section Drawing.
Context {T : Type}.

Lemma drawing_silent {A} (m : Py T A) : silent m → drawing m.
Proof. intros Hm st. rewrite Hm. split; [done | lia]. Qed.

Lemma drawing_bind {A B} (m : Py T A) (f : A → Py T B) :
  drawing m → (∀ a, drawing (f a)) → drawing (m ≫= f).
Proof.
  intros Hm Hf st. unfold mbind, Py_bind.
  destruct (Hm st) as [Hv Hc].
  destruct (m st) as [[a|e] st']; simpl in *; [|done].
  destruct (Hf a st') as [Hv' Hc']. split; [congruence | lia].
Qed.

Lemma drawing_try {A} (body : Py T A) (handler : pyexc → Py T A) :
  drawing body → (∀ e, silent (handler e)) →
  drawing (try_except_Exception body handler).
Proof.
  intros Hb Hh st. rewrite (surjective_pairing (try_except_Exception body handler st)).
  rewrite try_silent_state by done. apply Hb.
Qed.

Lemma drawing_str_uuid4 : drawing (str_uuid4 (T:=T)).
Proof. intros st. simpl. split; [done | lia]. Qed.

Lemma drawing_session_post url payload total :
  drawing (session_post (T:=T) url payload total).
Proof. intros st. simpl. split; [done | lia]. Qed.

End Drawing.

Lemma FStar_create_drawing i g k : drawing (FStarExecutionTool.create i g k).
Proof.
  unfold FStarExecutionTool.create. apply drawing_bind.
  - destruct i; [apply drawing_silent, silent_ret | apply drawing_str_uuid4].
  - intros a. apply drawing_silent, silent_ret.
Qed.

Lemma FStar_execute_drawing i p k : drawing (FStarExecutionTool.execute i p k).
Proof.
  intros st. destruct (FStar_execute_lookups st i p k)
    as [(code & tk & ename & Hc & Ht & He)|(e0 & Hx & _)].
  - rewrite (FStar_execute_keys st i p k code tk ename Hc Ht He).
    rewrite try_silent_state by (intros e; apply silent_ret).
    rewrite FStar_execute_try_state. simpl. split; [done | lia].
  - rewrite Hx. simpl. split; [done | lia].
Qed.

Lemma FStar_run_drawing calls st :
  uuid4_values (world (FStarExecutionTool.run calls st)) = uuid4_values (world st)
  ∧ (uuid4_calls (world st)
     ≤ uuid4_calls (world (FStarExecutionTool.run calls st)))%nat.
Proof.
  revert st. induction calls as [|c calls IH]; intros st; [split; [done | simpl; lia]|].
  change (FStarExecutionTool.run (c :: calls) st)
    with (FStarExecutionTool.run calls (FStarExecutionTool.invoke c st)).
  destruct (IH (FStarExecutionTool.invoke c st)) as [Hv Hc].
  assert (uuid4_values (world (FStarExecutionTool.invoke c st)) = uuid4_values (world st)
          ∧ (uuid4_calls (world st)
             ≤ uuid4_calls (world (FStarExecutionTool.invoke c st)))%nat)
    as [Hv' Hc'].
  { destruct c as [i g k|i p k|i k]; unfold FStarExecutionTool.invoke.
    - apply FStar_create_drawing.
    - apply FStar_execute_drawing.
    - apply (drawing_silent _ (FStar_release_silent i k)). }
  split; [congruence | lia].
Qed.

(** X12: [FStarExecutionTool.create] returns the identifier it is given
    and leaves the state as it is; without one it returns the next value
    of [uuid4], and a later [create] without one, whatever calls come in
    between, returns a value drawn strictly later: two tools' instances
    share an identifier only if [uuid4] repeats itself. *)
Theorem X12_create_identifiers st calls g1 k1 g2 k2 :
  (∀ i, FStarExecutionTool.create (Some i) g1 k1 st = (Returned (VStr i), st))
  ∧ ∃ a b,
      (a < b)%nat
      ∧ fst (FStarExecutionTool.create None g1 k1 st)
        = Returned (VStr (uuid4_values (world st) a))
      ∧ fst (FStarExecutionTool.create None g2 k2
               (FStarExecutionTool.run calls
                  (snd (FStarExecutionTool.create None g1 k1 st))))
        = Returned (VStr (uuid4_values (world st) b)).
Proof.
  split; [done|].
  set (st1 := snd (FStarExecutionTool.create None g1 k1 st)).
  destruct (FStar_run_drawing calls st1) as [Hv Hc].
  exists (uuid4_calls (world st)),
         (uuid4_calls (world (FStarExecutionTool.run calls st1))).
  split; [|split].
  - assert (uuid4_calls (world st1) = S (uuid4_calls (world st))) as Hs
      by reflexivity.
    lia.
  - reflexivity.
  - unfold FStarExecutionTool.create, mbind, Py_bind, str_uuid4; cbn [fst snd].
    by rewrite Hv.
Qed.

(** ** Requests over a sequence of calls *)

Lemma FStar_create_offline i g k : offline (FStarExecutionTool.create i g k).
Proof. intros st. by destruct i. Qed.

Lemma ListTool_create_offline i g k : offline (ListTool.create i g k).
Proof. intros st. by destruct i. Qed.

(** A call of [execute] adds at most one request. *)
Lemma FStar_execute_sent st i p k :
  ∃ requests,
    sent (world (snd (FStarExecutionTool.execute i p k st)))
    = sent (world st) ++ requests
    ∧ (length requests ≤ 1)%nat.
Proof.
  destruct (FStar_execute_lookups st i p k)
    as [(code & tk & ename & Hc & Ht & He)|(e0 & Hx & _)].
  - rewrite (FStar_execute_keys st i p k code tk ename Hc Ht He).
    rewrite try_silent_state by (intros e; apply silent_ret).
    rewrite FStar_execute_try_state. eexists. split; [reflexivity|]. simpl. lia.
  - rewrite Hx. exists []. split; [by rewrite app_nil_r | simpl; lia].
Qed.

(** X13: [ListTool] never sends a request: after any sequence of calls
    the requests sent are those sent before. *)
Theorem X13_ListTool_offline float_repr calls st :
  sent (world (ListTool.run float_repr calls st)) = sent (world st).
Proof.
  revert st. induction calls as [|c calls IH]; intros st; [done|].
  change (ListTool.run float_repr (c :: calls) st)
    with (ListTool.run float_repr calls (ListTool.invoke float_repr c st)).
  rewrite IH. destruct c as [i g k|i p k|i k]; unfold ListTool.invoke.
  - apply ListTool_create_offline.
  - by rewrite ListTool_execute_silent.
  - by rewrite ListTool_release_silent.
Qed.

(** X14: on [FStarExecutionTool], requests are only ever added, and only
    by [execute], one at most per call: after a sequence of calls the
    requests sent are those sent before followed by at most as many as
    the sequence has [execute] calls. *)
Theorem X14_requests_bounded_by_executes calls st :
  ∃ requests,
    sent (world (FStarExecutionTool.run calls st)) = sent (world st) ++ requests
    ∧ (length requests ≤ executes calls)%nat.
Proof.
  revert st. induction calls as [|c calls IH]; intros st.
  - exists []. split; [by rewrite app_nil_r | simpl; lia].
  - change (FStarExecutionTool.run (c :: calls) st)
      with (FStarExecutionTool.run calls (FStarExecutionTool.invoke c st)).
    destruct (IH (FStarExecutionTool.invoke c st)) as (rs & -> & Hl).
    destruct c as [i g k|i p k|i k]; unfold FStarExecutionTool.invoke; simpl executes.
    + rewrite FStar_create_offline. by exists rs.
    + destruct (FStar_execute_sent st i p k) as (r1 & -> & Hl1).
      exists (r1 ++ rs). rewrite <- app_assoc. split; [done|].
      rewrite length_app. lia.
    + rewrite FStar_release_silent. by exists rs.
Qed.
